(** * EV data management: the cleaning and type-inference core

    A shallow embedding of [data_preprocessor.py] (class
    [EVDataPreprocessor]: the field normalizers and the three dataset
    cleaners) and of the typed load of [setup_databases.py]
    ([guess_column_type], the column definitions and the batch loops),
    together with the properties of the specification that concern them.

    Conventions of the embedding.
    - A Python [str] is a [string]; a character is a code point below 256
      (the Latin-1 block), which is where the whitespace set, the control
      ranges of the regular expression and the case tables below live.
    - A Python [float] is a binary64 number, [spec_float] with precision 53
      and maximal exponent 1024; [float(s)] is the correctly rounded parse.
    - A Python [dict] with string keys is a [gmap string _]; [d.get(k)] is
      the lookup [d !! k], with [None] for Python's [None].
    - Exceptions are explicit: a computation is a [res A], either [Ok a]
      or [Raise e]; [try ... except (ValueError, TypeError)] is
      [try_except].
    - The database behind a cursor is a state of some type [C];
      [cursor.executemany] either returns, leaving a new state, or raises
      an exception of some type [E]. *)

From Stdlib Require Import ZArith NArith Ascii String List Bool Lia.
From Stdlib Require Import DecimalString.
From Stdlib Require Import Floats.SpecFloat.
From stdpp Require Import gmap strings.

Local Open Scope string_scope.
Local Open Scope Z_scope.

#[local] Set Warnings "-clear-no-such-hyp".

(** ** Python exceptions and the result monad *)

Inductive exn : Type :=
  | ValueError
  | TypeError
  | OverflowError
  | AttributeError.

Inductive res (A : Type) : Type :=
  | Ok (a : A)
  | Raise (e : exn).

Arguments Ok {A} a.
Arguments Raise {A} e.

#[global] Instance res_ret : MRet res := fun A a => Ok a.

#[global] Instance res_bind : MBind res :=
  fun A B k m => match m with Ok a => k a | Raise e => Raise e end.

Definition exn_eqb (a b : exn) : bool :=
  match a, b with
  | ValueError, ValueError | TypeError, TypeError
  | OverflowError, OverflowError | AttributeError, AttributeError => true
  | _, _ => false
  end.

(** [try: body  except (e1, ..., en): handler] *)
Definition try_except {A} (body : res A) (caught : list exn) (handler : res A) : res A :=
  match body with
  | Ok a => Ok a
  | Raise e => if existsb (exn_eqb e) caught then handler else Raise e
  end.

Definition raises {A} (m : res A) : Prop :=
  match m with Ok _ => False | Raise _ => True end.

(** ** Characters and the string methods the code calls *)

Definition code (c : ascii) : N := N_of_ascii c.

Definition between (lo hi : N) (c : ascii) : bool :=
  ((lo <=? code c) && (code c <=? hi))%N.

(** [str.isspace] on one character. *)
Definition py_isspace (c : ascii) : bool :=
  between 9 13 c || between 28 32 c || (code c =? 133)%N || (code c =? 160)%N.

Fixpoint lstrip (s : string) : string :=
  match s with
  | EmptyString => EmptyString
  | String c r => if py_isspace c then lstrip r else s
  end.

Fixpoint rstrip (s : string) : string :=
  match s with
  | EmptyString => EmptyString
  | String c r =>
      match rstrip r with
      | EmptyString => if py_isspace c then EmptyString else String c EmptyString
      | r' => String c r'
      end
  end.

(** [s.strip()] *)
Definition strip (s : string) : string := rstrip (lstrip s).

Fixpoint remove_chars (p : ascii -> bool) (s : string) : string :=
  match s with
  | EmptyString => EmptyString
  | String c r => if p c then remove_chars p r else String c (remove_chars p r)
  end.

(** The character class [[\x00-\x1f\x7f-\x9f]]. *)
Definition is_control (c : ascii) : bool := between 0 31 c || between 127 159 c.

(** [re.sub(r'[\x00-\x1f\x7f-\x9f]', '', s)] *)
Definition re_sub_control (s : string) : string := remove_chars is_control s.

(** [s.replace(c, '')] for a one-character [c]. *)
Definition replace_char (c : ascii) (s : string) : string :=
  remove_chars (Ascii.eqb c) s.

Fixpoint contains_char (c : ascii) (s : string) : bool :=
  match s with
  | EmptyString => false
  | String d r => Ascii.eqb c d || contains_char c r
  end.

(** [s in [a, b, ...]] *)
Definition str_in (s : string) (l : list string) : bool := existsb (String.eqb s) l.

Definition str_nonempty (s : string) : bool :=
  match s with EmptyString => false | _ => true end.

Definition py_len (s : string) : Z := Z.of_nat (String.length s).

(** Case tables of the Latin-1 block.  The capitals of U+00B5 and U+00FF
    are U+039C and U+0178, outside the block: both are left as they are. *)
Definition is_upper_letter (c : ascii) : bool :=
  between 65 90 c || between 192 214 c || between 216 222 c.

Definition is_lower_letter (c : ascii) : bool :=
  between 97 122 c || between 224 246 c || between 248 254 c.

Definition is_cased (c : ascii) : bool :=
  is_upper_letter c || is_lower_letter c
  || (code c =? 170)%N || (code c =? 181)%N || (code c =? 186)%N
  || (code c =? 223)%N || (code c =? 255)%N.

Definition lower_char (c : ascii) : ascii :=
  if is_upper_letter c then ascii_of_N (code c + 32) else c.

Definition upper_char (c : ascii) : string :=
  if is_lower_letter c then String (ascii_of_N (code c - 32)) EmptyString
  else if (code c =? 223)%N then "SS"
  else String c EmptyString.

Definition title_char (c : ascii) : string :=
  if is_lower_letter c then String (ascii_of_N (code c - 32)) EmptyString
  else if (code c =? 223)%N then "Ss"
  else String c EmptyString.

(** [s.lower()] *)
Fixpoint py_lower (s : string) : string :=
  match s with
  | EmptyString => EmptyString
  | String c r => String (lower_char c) (py_lower r)
  end.

(** [s.upper()] *)
Fixpoint py_upper (s : string) : string :=
  match s with
  | EmptyString => EmptyString
  | String c r => upper_char c +:+ py_upper r
  end.

(** [s.title()]: a character that follows a cased one is lower-cased,
    any other is title-cased. *)
Fixpoint title_from (previous_is_cased : bool) (s : string) : string :=
  match s with
  | EmptyString => EmptyString
  | String c r =>
      (if previous_is_cased then String (lower_char c) EmptyString else title_char c)
      +:+ title_from (is_cased c) r
  end.

Definition py_title (s : string) : string := title_from false s.

(** ** Floating point: binary64 *)

Definition prec : Z := 53.
Definition emax : Z := 1024.

Definition float_zero : spec_float := S754_zero false.

(** The float nearest to an integer (ties to even). *)
Definition float_of_Z (z : Z) : spec_float := binary_normalize prec emax z 0 false.

(** The float nearest to [(-1)^neg * D * 10^E], for [0 <= D]. *)
Definition round_decimal (neg : bool) (D E : Z) : spec_float :=
  if D =? 0 then S754_zero neg
  else if 0 <=? E then binary_normalize prec emax (cond_Zopp neg (D * 10 ^ E)) 0 false
  else
    let '(q, e, l) := SFdiv_core_binary prec emax D 0 (10 ^ (- E)) 0 in
    binary_round_aux prec emax neg q e l.

Definition float_is_zero (f : spec_float) : bool :=
  match f with S754_zero _ => true | _ => false end.

Definition float_is_finite (f : spec_float) : bool :=
  match f with S754_zero _ | S754_finite _ _ _ => true | _ => false end.

Definition float_leb (a b : spec_float) : bool := SFleb a b.
Definition float_ltb (a b : spec_float) : bool := SFltb a b.

(** [int(f)]: truncation toward zero; infinities and NaN have no integer. *)
Definition int_of_float (f : spec_float) : res Z :=
  match f with
  | S754_nan => Raise ValueError
  | S754_infinity _ => Raise OverflowError
  | S754_zero _ => Ok 0
  | S754_finite s m e =>
      Ok (cond_Zopp s (if 0 <=? e then Zpos m * 2 ^ e else Zpos m / 2 ^ (- e)))
  end.

(** [f == z] for a float and an integer: Python compares the exact values. *)
Definition float_eqb_int (f : spec_float) (z : Z) : bool :=
  match f with
  | S754_zero _ => z =? 0
  | S754_finite s m e =>
      if 0 <=? e then z =? cond_Zopp s (Zpos m * 2 ^ e)
      else z * 2 ^ (- e) =? cond_Zopp s (Zpos m)
  | _ => false
  end.

(** *** [float(s)] on a string *)

Definition is_digit (c : ascii) : bool := between 48 57 c.
Definition digit_val (c : ascii) : Z := Z.of_N (code c) - 48.

Fixpoint all_chars (p : ascii -> bool) (s : string) : bool :=
  match s with
  | EmptyString => true
  | String c r => p c && all_chars p r
  end.

(** Before parsing, a string with a character outside ASCII has every
    character from 127 on replaced: whitespace by a blank, anything else
    by a question mark (the block has no decimal digits of its own). *)
Definition transform_char (c : ascii) : ascii :=
  if (code c <? 127)%N then c
  else if py_isspace c then " "%char else "?"%char.

Fixpoint map_chars (f : ascii -> ascii) (s : string) : string :=
  match s with
  | EmptyString => EmptyString
  | String c r => String (f c) (map_chars f r)
  end.

Definition transform_to_ascii (s : string) : string :=
  if all_chars (fun c => (code c <? 128)%N) s then s else map_chars transform_char s.

(** The C locale's [isspace]: what [float] skips around the number. *)
Definition c_isspace (c : ascii) : bool := between 9 13 c || (code c =? 32)%N.

Fixpoint c_lstrip (s : string) : string :=
  match s with
  | EmptyString => EmptyString
  | String c r => if c_isspace c then c_lstrip r else s
  end.

Fixpoint c_rstrip (s : string) : string :=
  match s with
  | EmptyString => EmptyString
  | String c r =>
      match c_rstrip r with
      | EmptyString => if c_isspace c then EmptyString else String c EmptyString
      | r' => String c r'
      end
  end.

(** Underscores are allowed between two digits only; they are dropped. *)
Fixpoint drop_underscores (prev : ascii) (s : string) : option string :=
  match s with
  | EmptyString => if Ascii.eqb prev "_" then None else Some EmptyString
  | String c r =>
      if Ascii.eqb c "_" then
        if is_digit prev then drop_underscores c r else None
      else if Ascii.eqb prev "_" && negb (is_digit c) then None
      else option_map (String c) (drop_underscores c r)
  end.

Fixpoint read_digits (s : string) (acc n : Z) : Z * Z * string :=
  match s with
  | EmptyString => (acc, n, s)
  | String c r =>
      if is_digit c then read_digits r (10 * acc + digit_val c) (n + 1)
      else (acc, n, s)
  end.

Definition read_sign (s : string) : bool * string :=
  match s with
  | String "-" r => (true, r)
  | String "+" r => (false, r)
  | _ => (false, s)
  end.

(** ASCII lower-casing, as the C parser compares [inf] and [nan]. *)
Definition c_tolower (c : ascii) : ascii :=
  if between 65 90 c then ascii_of_N (code c + 32) else c.

(** Digits, an optional fraction and an optional exponent, to the end of
    the string: the pair [(D, E)] stands for [D * 10^E]. *)
Definition parse_decimal (s : string) : option (Z * Z) :=
  let '(ip, ni, r1) := read_digits s 0 0 in
  let '(D, nf, r2) :=
    match r1 with
    | String "." r => read_digits r ip 0
    | _ => (ip, 0, r1)
    end in
  if ni + nf =? 0 then None
  else
    match r2 with
    | EmptyString => Some (D, - nf)
    | String c r3 =>
        if Ascii.eqb (c_tolower c) "e" then
          let '(eneg, r4) := read_sign r3 in
          let '(ev, ne, r5) := read_digits r4 0 0 in
          if ne =? 0 then None
          else if str_nonempty r5 then None
          else Some (D, cond_Zopp eneg ev - nf)
        else None
    end.

Definition parse_float_body (s : string) : option spec_float :=
  let '(neg, r) := read_sign s in
  let low := map_chars c_tolower r in
  if str_in low ["inf"; "infinity"] then Some (S754_infinity neg)
  else if String.eqb low "nan" then Some S754_nan
  else
    match parse_decimal r with
    | Some (D, E) => Some (round_decimal neg D E)
    | None => None
    end.

(** [float(s)] for a string [s]. *)
Definition float_of_str (s : string) : res spec_float :=
  let t := c_rstrip (c_lstrip (transform_to_ascii s)) in
  if negb (str_nonempty t) then Raise ValueError
  else
    match (if contains_char "_" t then drop_underscores "000" t else Some t) with
    | None => Raise ValueError
    | Some u =>
        match parse_float_body u with
        | Some f => Ok f
        | None => Raise ValueError
        end
    end.

(** *** [repr(f)]: the shortest decimal string that reads back as [f] *)

Definition float_same (a b : spec_float) : bool :=
  match a, b with
  | S754_zero s, S754_zero t => Bool.eqb s t
  | S754_infinity s, S754_infinity t => Bool.eqb s t
  | S754_nan, S754_nan => true
  | S754_finite s m e, S754_finite t n d => Bool.eqb s t && (m =? n)%positive && (e =? d)
  | _, _ => false
  end.

(** [10^k <= num / den] *)
Definition pow10_le (k num den : Z) : bool :=
  if 0 <=? k then 10 ^ k * den <=? num else den <=? num * 10 ^ (- k).

(** The decimal exponent [k] of [m * 2^e]: [10^k <= m * 2^e < 10^(k+1)]. *)
Definition decimal_exponent (m : positive) (e : Z) : Z :=
  let num := if 0 <=? e then Zpos m * 2 ^ e else Zpos m in
  let den := if 0 <=? e then 1 else 2 ^ (- e) in
  let g := (Zpos (digits2_pos m) + e - 1) * 30103 / 100000 in
  if negb (pow10_le g num den) then g - 1
  else if pow10_le (g + 1) num den then g + 1
  else g.

(** The [n]-digit decimal [c * 10^(k-n+1)] nearest to [m * 2^e] among
    those that read back as that float, if there is one. *)
Definition digits_candidate (m : positive) (e k : Z) (n : Z) : option Z :=
  let x := S754_finite false m e in
  let sh := n - 1 - k in
  let num := (if 0 <=? e then Zpos m * 2 ^ e else Zpos m) * (if 0 <=? sh then 10 ^ sh else 1) in
  let den := (if 0 <=? e then 1 else 2 ^ (- e)) * (if 0 <=? sh then 1 else 10 ^ (- sh)) in
  let lo := num / den in
  let rm := num mod den in
  let ok c := float_same (round_decimal false c (- sh)) x in
  if rm =? 0 then (if ok lo then Some lo else None)
  else
    match ok lo, ok (lo + 1) with
    | true, true => Some (if 2 * rm <? den then lo
                          else if den <? 2 * rm then lo + 1
                          else if Z.even lo then lo else lo + 1)
    | true, false => Some lo
    | false, true => Some (lo + 1)
    | false, false => None
    end.

Fixpoint shortest_digits (fuel : nat) (m : positive) (e k : Z) (n : Z) : Z * Z :=
  match fuel with
  | O => ((if 0 <=? e then Zpos m * 2 ^ e else Zpos m / 2 ^ (- e)), 0)
  | S fuel' =>
      match digits_candidate m e k n with
      | Some c => (c, k - n + 1)
      | None => shortest_digits fuel' m e k (n + 1)
      end
  end.

Fixpoint drop_zeros (fuel : nat) (c z : Z) : Z * Z :=
  match fuel with
  | O => (c, z)
  | S fuel' => if (c mod 10 =? 0) && negb (c =? 0) then drop_zeros fuel' (c / 10) (z + 1) else (c, z)
  end.

Definition string_of_Z (z : Z) : string := NilZero.string_of_int (Z.to_int z).

Fixpoint zeros (n : nat) : string :=
  match n with O => EmptyString | S n' => String "0" (zeros n') end.

Definition format_repr (neg : bool) (ds : string) (decpt : Z) : string :=
  let nd := py_len ds in
  (if neg then "-" else "") +:+
  (if (decpt <=? -4) || (16 <? decpt) then
     let ex := decpt - 1 in
     let es := string_of_Z (Z.abs ex) in
     substring 0 1 ds
     +:+ (if 1 <? nd then "." +:+ substring 1 (String.length ds - 1) ds else "")
     +:+ "e" +:+ (if ex <? 0 then "-" else "+")
     +:+ (if py_len es <? 2 then "0" else "") +:+ es
   else if decpt <=? 0 then "0." +:+ zeros (Z.to_nat (- decpt)) +:+ ds
   else if nd <=? decpt then ds +:+ zeros (Z.to_nat (decpt - nd)) +:+ ".0"
   else substring 0 (Z.to_nat decpt) ds +:+ "." +:+
        substring (Z.to_nat decpt) (String.length ds - Z.to_nat decpt) ds).

Definition float_repr (f : spec_float) : string :=
  match f with
  | S754_nan => "nan"
  | S754_infinity s => if s then "-inf" else "inf"
  | S754_zero s => if s then "-0.0" else "0.0"
  | S754_finite s m e =>
      let k := decimal_exponent m e in
      let '(c, e10) := shortest_digits 17 m e k 1 in
      let '(c', z) := drop_zeros 400 c 0 in
      let ds := string_of_Z c' in
      format_repr s ds (py_len ds + z + e10)
  end.

(** ** Python values *)

Inductive pyval : Type :=
  | VStr (s : string)
  | VInt (z : Z)
  | VFloat (f : spec_float)
  | VBool (b : bool).

(** What [clean_numeric] returns when it returns a number. *)
Inductive pynum : Type :=
  | NInt (z : Z)
  | NFloat (f : spec_float).

Definition num_val (n : pynum) : pyval :=
  match n with NInt z => VInt z | NFloat f => VFloat f end.

(** Truth value of an object; [None] is Python's [None]. *)
Definition truthy (v : option pyval) : bool :=
  match v with
  | None => false
  | Some (VStr s) => str_nonempty s
  | Some (VInt z) => negb (z =? 0)
  | Some (VFloat f) => negb (float_is_zero f)
  | Some (VBool b) => b
  end.

(** [a or b] *)
Definition py_or (a b : option pyval) : option pyval := if truthy a then a else b.

(** [str(v)] *)
Definition py_str (v : pyval) : string :=
  match v with
  | VStr s => s
  | VInt z => string_of_Z z
  | VFloat f => float_repr f
  | VBool b => if b then "True" else "False"
  end.

(** [float(v)] *)
Definition py_float (v : pyval) : res spec_float :=
  match v with
  | VStr s => float_of_str s
  | VInt z =>
      match float_of_Z z with
      | S754_infinity _ => Raise OverflowError
      | f => Ok f
      end
  | VFloat f => Ok f
  | VBool b => Ok (float_of_Z (if b then 1 else 0))
  end.

(** Comparisons of a number with an integer literal. *)
Definition int_le_num (k : Z) (n : pynum) : bool :=
  match n with NInt z => k <=? z | NFloat f => float_leb (float_of_Z k) f end.

Definition num_le_int (n : pynum) (k : Z) : bool :=
  match n with NInt z => z <=? k | NFloat f => float_leb f (float_of_Z k) end.

Definition num_gt_int (n : pynum) (k : Z) : bool :=
  match n with NInt z => k <? z | NFloat f => float_ltb (float_of_Z k) f end.

Definition num_truthy (n : option pynum) : bool := truthy (num_val <$> n).
Definition str_truthy (s : option string) : bool := truthy (VStr <$> s).

(** A raw or a cleaned record: a dictionary from column names to values. *)
Abbreviation record := (gmap string pyval).

(** ** Field normalizers ([EVDataPreprocessor]) *)

Definition null_strings : list string := [""; "NULL"; "null"; "None"; "N/A"; "n/a"].

(** [clean_string(value)] *)
Definition clean_string (value : option pyval) : res (option string) :=
  if negb (truthy value) then Ok None
  else
    match value with
    | Some (VStr s) =>
        if str_in (strip s) null_strings then Ok None
        else
          let cleaned := strip s in
          let cleaned := re_sub_control cleaned in
          Ok (if str_nonempty cleaned then Some cleaned else None)
    | _ => Raise AttributeError
    end.

Definition numeric_nulls : list string := ["null"; "none"; "n/a"; ""; "nan"].

(** The string that [clean_numeric] hands to [float]. *)
Definition strip_symbols (s : string) : string :=
  strip (replace_char "%" (replace_char "," (replace_char "$" s))).

(** [clean_numeric(value, data_type)] *)
Definition clean_numeric (value : option pyval) (data_type : string) : res (option pynum) :=
  if negb (truthy value) then Ok None
  else
    match value with
    | Some v =>
        let cleaned := strip_symbols (py_str v) in
        if str_in (py_lower cleaned) numeric_nulls then Ok None
        else
          try_except
            (if String.eqb data_type "int" then
               f ← float_of_str cleaned;
               z ← int_of_float f;
               Ok (Some (NInt z))
             else
               f ← float_of_str cleaned;
               Ok (Some (NFloat f)))
            [ValueError; TypeError]
            (Ok None)
    | None => Ok None
    end.

(** [clean_year(value)] *)
Definition clean_year (value : option pyval) : res (option pynum) :=
  year ← clean_numeric value "int";
  match year with
  | Some y =>
      if num_truthy year && int_le_num 1990 y && num_le_int y 2030 then Ok year
      else Ok None
  | None => Ok None
  end.

Definition standardization_map : gmap string string :=
  list_to_map
    [ ("bmw", "BMW"); ("tesla", "Tesla"); ("audi", "Audi");
      ("mercedes", "Mercedes-Benz"); ("mercedes-benz", "Mercedes-Benz");
      ("volkswagen", "Volkswagen"); ("vw", "Volkswagen");
      ("nissan", "Nissan"); ("hyundai", "Hyundai"); ("kia", "Kia");
      ("ford", "Ford"); ("chevrolet", "Chevrolet"); ("chevy", "Chevrolet");
      ("byd", "BYD"); ("nio", "NIO"); ("lucid", "Lucid Motors");
      ("rivian", "Rivian"); ("polestar", "Polestar") ].

(** [standardize_make(make)] *)
Definition standardize_make (make : option pyval) : res (option string) :=
  if negb (truthy make) then Ok None
  else
    make ← clean_string make;
    match make with
    | Some m =>
        if negb (str_truthy make) then Ok None
        else
          let make_lower := py_lower m in
          Ok (Some (default (py_title m) (standardization_map !! make_lower)))
    | None => Ok None
    end.

Definition in_range (lo hi : Z) (f : spec_float) : bool :=
  float_leb (float_of_Z lo) f && float_leb f (float_of_Z hi).

(** [float(x) if x else None] *)
Definition float_if (x : option pyval) : res (option spec_float) :=
  match x with
  | Some v => if truthy x then f ← py_float v; Ok (Some f) else Ok None
  | None => Ok None
  end.

(** [validate_coordinates(lat, lng)] *)
Definition validate_coordinates (lat lng : option pyval)
  : res (option spec_float * option spec_float) :=
  try_except
    (lat_f ← float_if lat;
     lng_f ← float_if lng;
     match lat_f, lng_f with
     | Some a, Some b =>
         if in_range (-90) 90 a && in_range (-180) 180 b then Ok (Some a, Some b)
         else Ok (None, None)
     | _, _ => Ok (None, None)
     end)
    [ValueError; TypeError]
    (Ok (None, None)).

(** ** Dataset cleaners *)

(** [if x: cleaned_row[k] = x] for a cleaned string. *)
Definition put_str (k : string) (x : option string) (cleaned_row : record) : record :=
  match x with
  | Some s => if str_truthy x then <[k := VStr s]> cleaned_row else cleaned_row
  | None => cleaned_row
  end.

(** [if x and x > 0: cleaned_row[k] = x] for a cleaned number. *)
Definition put_positive (k : string) (x : option pynum) (cleaned_row : record) : record :=
  match x with
  | Some n =>
      if num_truthy x && num_gt_int n 0 then <[k := num_val n]> cleaned_row
      else cleaned_row
  | None => cleaned_row
  end.

(** [if x: cleaned_row[k] = x] for a cleaned number. *)
Definition put_num (k : string) (x : option pynum) (cleaned_row : record) : record :=
  match x with
  | Some n => if num_truthy x then <[k := num_val n]> cleaned_row else cleaned_row
  | None => cleaned_row
  end.

(** [if x and len(x) >= n: cleaned_row[k] = x] for a cleaned string. *)
Definition put_long_str (n : Z) (k : string) (x : option string) (cleaned_row : record)
  : record :=
  match x with
  | Some s =>
      if str_truthy x && (n <=? py_len s) then <[k := VStr s]> cleaned_row
      else cleaned_row
  | None => cleaned_row
  end.

(** [for row in raw_data: ...; cleaned_data.append(cleaned_row)], where the
    body either appends a record or moves on to the next row; an exception
    in the body leaves the loop and the function. *)
Fixpoint for_rows (body : record -> res (option record)) (raw_data : list record)
  : res (list record) :=
  match raw_data with
  | [] => Ok []
  | row :: rest =>
      r ← body row;
      cleaned_data ← for_rows body rest;
      Ok (match r with Some cleaned_row => cleaned_row :: cleaned_data | None => cleaned_data end)
  end.

(** The body of the loop of [clean_ev_population_data]. *)
Definition clean_ev_population_row (row : record) : res (option record) :=
  let cleaned_row : record := ∅ in
  make ← standardize_make (py_or (row !! "make") (row !! "Make"));
  model ← clean_string (py_or (row !! "model") (row !! "Model"));
  match make, model with
  | Some mk, Some md =>
      if negb (str_truthy make) || negb (str_truthy model) then Ok None
      else
        let cleaned_row := <["make" := VStr mk]> cleaned_row in
        let cleaned_row := <["model" := VStr md]> cleaned_row in
        let year_field :=
          py_or (py_or (py_or (row !! "model_year") (row !! "Model Year"))
                       (row !! "year")) (row !! "Year") in
        year ← clean_year year_field;
        let cleaned_row := put_num "model_year" year cleaned_row in
        let ev_type_field :=
          py_or (py_or (row !! "electric_vehicle_type") (row !! "Electric Vehicle Type"))
                (row !! "EV Type") in
        ev_type ← clean_string ev_type_field;
        let cleaned_row := put_str "electric_vehicle_type" ev_type cleaned_row in
        let range_field :=
          py_or (py_or (row !! "electric_range") (row !! "Electric Range"))
                (row !! "range") in
        electric_range ← clean_numeric range_field "int";
        let cleaned_row := put_positive "electric_range" electric_range cleaned_row in
        let price_field :=
          py_or (py_or (py_or (row !! "base_msrp") (row !! "Base MSRP"))
                       (row !! "MSRP")) (row !! "price") in
        price ← clean_numeric price_field "float";
        let cleaned_row := put_positive "base_msrp" price cleaned_row in
        let state_field := py_or (row !! "state") (row !! "State") in
        let city_field := py_or (row !! "city") (row !! "City") in
        let county_field := py_or (row !! "county") (row !! "County") in
        state ← clean_string state_field;
        city ← clean_string city_field;
        county ← clean_string county_field;
        let cleaned_row := put_str "state" state cleaned_row in
        let cleaned_row := put_str "city" city cleaned_row in
        let cleaned_row := put_str "county" county cleaned_row in
        let vin_field :=
          py_or (py_or (py_or (row !! "vin_1_10") (row !! "VIN (1-10)"))
                       (row !! "VIN")) (row !! "vin") in
        vin ← clean_string vin_field;
        let cleaned_row := put_long_str 10 "vin_1_10" vin cleaned_row in
        if truthy (cleaned_row !! "make") && truthy (cleaned_row !! "model")
           && truthy (py_or (cleaned_row !! "state") (cleaned_row !! "city"))
        then Ok (Some cleaned_row)
        else Ok None
  | _, _ => Ok None
  end.

(** [clean_ev_population_data(raw_data)] *)
Definition clean_ev_population_data (raw_data : list record) : res (list record) :=
  for_rows clean_ev_population_row raw_data.

(** [is_fast.upper() in ['TRUE', 'YES', '1', 'T']], or [bool(is_fast)] for
    a value that is not a string. *)
Definition fast_dc_flag (is_fast : pyval) : bool :=
  match is_fast with
  | VStr s => str_in (py_upper s) ["TRUE"; "YES"; "1"; "T"]
  | v => truthy (Some v)
  end.

(** The body of the loop of [clean_charging_stations_data]. *)
Definition clean_charging_stations_row (row : record) : res (option record) :=
  let cleaned_row : record := ∅ in
  coords ← validate_coordinates (row !! "latitude") (row !! "longitude");
  match coords with
  | (Some lat, Some lng) =>
      let cleaned_row := <["latitude" := VFloat lat]> cleaned_row in
      let cleaned_row := <["longitude" := VFloat lng]> cleaned_row in
      country ← clean_string (py_or (row !! "country_code") (row !! "country"));
      match country with
      | Some ctry =>
          if negb (str_truthy country) then Ok None
          else
            let cleaned_row := <["country_code" := VStr (py_upper ctry)]> cleaned_row in
            city ← clean_string (row !! "city");
            let cleaned_row := put_str "city" city cleaned_row in
            power ← clean_numeric (py_or (row !! "power_kw") (row !! "power")) "float";
            let cleaned_row := put_positive "power_kw" power cleaned_row in
            ports ← clean_numeric (row !! "ports") "int";
            let cleaned_row := put_positive "ports" ports cleaned_row in
            power_class ← clean_string (row !! "power_class");
            let cleaned_row := put_str "power_class" power_class cleaned_row in
            let is_fast := row !! "is_fast_dc" in
            let cleaned_row :=
              match is_fast with
              | Some v => <["is_fast_dc" := VBool (fast_dc_flag v)]> cleaned_row
              | None => cleaned_row
              end in
            connector ← clean_string (row !! "connector_type");
            let cleaned_row := put_str "connector_type" connector cleaned_row in
            network ← clean_string (py_or (row !! "network") (row !! "operator"));
            let cleaned_row := put_str "network" network cleaned_row in
            status ← clean_string (row !! "status");
            let cleaned_row := put_str "status" status cleaned_row in
            Ok (Some cleaned_row)
      | None => Ok None
      end
  | _ => Ok None
  end.

(** [clean_charging_stations_data(raw_data)] *)
Definition clean_charging_stations_data (raw_data : list record) : res (list record) :=
  for_rows clean_charging_stations_row raw_data.

(** The body of the loop of [clean_ev_sales_data]. *)
Definition clean_ev_sales_row (row : record) : res (option record) :=
  let cleaned_row : record := ∅ in
  region ← clean_string (py_or (row !! "region") (row !! "country"));
  match region with
  | Some rg =>
      if negb (str_truthy region) then Ok None
      else
        let cleaned_row := <["region" := VStr rg]> cleaned_row in
        year ← clean_year (row !! "year");
        match year with
        | Some y =>
            if negb (num_truthy year) then Ok None
            else
              let cleaned_row := <["year" := num_val y]> cleaned_row in
              parameter ← clean_string (py_or (row !! "parameter") (row !! "category"));
              let cleaned_row := put_str "parameter" parameter cleaned_row in
              value ← clean_numeric (row !! "value") "float";
              let cleaned_row :=
                match value with
                | Some v => <["value" := num_val v]> cleaned_row
                | None => cleaned_row
                end in
              unit ← clean_string (row !! "unit");
              let cleaned_row := put_str "unit" unit cleaned_row in
              mode ← clean_string (row !! "mode");
              let cleaned_row := put_str "mode" mode cleaned_row in
              powertrain ← clean_string (row !! "powertrain");
              let cleaned_row := put_str "powertrain" powertrain cleaned_row in
              Ok (Some cleaned_row)
        | None => Ok None
        end
  | None => Ok None
  end.

(** [clean_ev_sales_data(raw_data)] *)
Definition clean_ev_sales_data (raw_data : list record) : res (list record) :=
  for_rows clean_ev_sales_row raw_data.

(** ** Column type inference ([setup_databases.py]) *)

(** [[v.strip() for v in values if v and v.strip()]] *)
Definition non_empty_values (values : list string) : list string :=
  map strip (List.filter (fun v => str_nonempty v && str_nonempty (strip v)) values).

(** One turn of the loop over the first 20 values: does [v] have a decimal
    part?  [float] and [int] may raise. *)
Definition value_has_decimal (v : string) : res bool :=
  float_val ← float_of_str v;
  if contains_char "." v then Ok true
  else
    z ← int_of_float float_val;
    Ok (negb (float_eqb_int float_val z)).

Fixpoint scan_numeric (vs : list string) (has_decimal : bool) : res bool :=
  match vs with
  | [] => Ok has_decimal
  | v :: rest =>
      d ← value_has_decimal v;
      scan_numeric rest (d || has_decimal)
  end.

Definition max_length (vs : list string) : Z :=
  fold_right (fun v acc => Z.max (py_len v) acc) 0 vs.

(** [guess_column_type(values)] *)
Definition guess_column_type (values : list string) : res string :=
  let non_empty := non_empty_values values in
  match non_empty with
  | [] => Ok "TEXT"
  | _ =>
      numeric ← try_except
                  (has_decimal ← scan_numeric (take 20 non_empty) false;
                   Ok (Some has_decimal))
                  [ValueError; TypeError]
                  (Ok None);
      match numeric with
      | Some true => Ok "DECIMAL(15,4)"
      | Some false => Ok "INTEGER"
      | None =>
          let max_len := max_length (take 50 non_empty) in
          if max_len <=? 50 then Ok "VARCHAR(100)"
          else if max_len <=? 150 then Ok "VARCHAR(200)"
          else Ok "TEXT"
      end
  end.

(** ** The specification's vocabulary *)

(** A raw record holds raw strings only; [raw_row] is the dictionary the
    cleaners receive for it. *)
Definition raw_row (raw : gmap string string) : record := VStr <$> raw.

(** The exact value of a finite float is [float_num f / float_den f]. *)
Definition float_num (f : spec_float) : Z :=
  match f with
  | S754_finite s m e => cond_Zopp s (if 0 <=? e then Zpos m * 2 ^ e else Zpos m)
  | _ => 0
  end.

Definition float_den (f : spec_float) : Z :=
  match f with
  | S754_finite _ _ e => if 0 <=? e then 1 else 2 ^ (- e)
  | _ => 1
  end.

(** Rounding toward minus infinity, and rounding toward zero. *)
Definition float_floor (f : spec_float) : Z := float_num f / float_den f.
Definition float_trunc (f : spec_float) : Z := float_num f ÷ float_den f.

(** The outcome of [float(s)] as an optional value. *)
Definition parses (s : string) : option spec_float :=
  match float_of_str s with Ok f => Some f | Raise _ => None end.

(** A coordinate cell that is present, parses and lies in [[lo, hi]]. *)
Definition coordinate (lo hi : Z) (x : option string) : option spec_float :=
  match x with
  | Some s =>
      match parses s with
      | Some f => if in_range lo hi f then Some f else None
      | None => None
      end
  | None => None
  end.

(** The 256 characters, and the strings a given string is the lower-case
    form of. *)
Definition all_ascii : list ascii := map ascii_of_nat (seq 0 256).

Definition lower_pre (c : ascii) : list ascii :=
  List.filter (fun a => Ascii.eqb (lower_char a) c) all_ascii.

Fixpoint lower_pres (t : string) : list string :=
  match t with
  | EmptyString => [EmptyString]
  | String c r => flat_map (fun a => map (String a) (lower_pres r)) (lower_pre c)
  end.

(** The null sentinels as the specification words them: the trimmed
    string equals one of ["NULL"], ["None"], ["N/A"], [""] when case is
    ignored. *)
Definition eq_ignoring_case (a b : string) : bool :=
  String.eqb (py_lower a) (py_lower b).

Definition is_null_sentinel (s : string) : bool :=
  existsb (eq_ignoring_case (strip s)) ["NULL"; "None"; "N/A"; ""].

(** ** The rest of [data_preprocessor.py] *)

(** [sub in s] for two strings. *)
Fixpoint py_contains (sub s : string) : bool :=
  String.prefix sub s
  || match s with
     | EmptyString => false
     | String _ r => py_contains sub r
     end.

(** [detect_data_type(filename)] *)
Definition detect_data_type (filename : string) : string :=
  let filename_lower := py_lower filename in
  if py_contains "population" filename_lower || py_contains "vehicle" filename_lower
  then "ev_population"
  else if py_contains "charging_station" filename_lower || py_contains "station" filename_lower
  then "charging_stations"
  else if py_contains "sales" filename_lower || py_contains "iea" filename_lower
          || py_contains "global" filename_lower
  then "ev_sales"
  else "generic".

(** The dispatch of [process_all_files] on the detected type: the cleaner
    that is run on the rows of the file, or [None] when the file is
    skipped with a warning. *)
Definition clean_detected (data_type : string) (raw_data : list record)
  : option (res (list record)) :=
  if String.eqb data_type "ev_population" then Some (clean_ev_population_data raw_data)
  else if String.eqb data_type "charging_stations" then Some (clean_charging_stations_data raw_data)
  else if String.eqb data_type "ev_sales" then Some (clean_ev_sales_data raw_data)
  else None.

(** What [process_all_files] does with one file, given its stem and its
    rows: nothing when no row was loaded, else the dispatch. *)
Definition process_file (stem : string) (raw_data : list record)
  : option (res (list record)) :=
  match raw_data with
  | [] => None
  | _ => clean_detected (detect_data_type stem) raw_data
  end.

(** [save_cleaned_data]: the union of the keys of all records, and each
    record completed to those keys, a missing one holding [None]. *)
Definition all_fields (data : list record) : gset string :=
  foldl (fun fields rec => fields ∪ dom rec) ∅ data.

Definition standardized_record (fields : gset string) (rec : record)
  : gmap string (option pyval) :=
  set_to_map (fun field => (field, rec !! field)) fields.

Definition standardized_data (data : list record) : list (gmap string (option pyval)) :=
  map (standardized_record (all_fields data)) data.

(** ** The rest of [setup_databases.py]: the typed load *)

(** [[row[i] if i < len(row) else '' for row in sample_rows]] *)
Definition column_values (i : nat) (sample_rows : list (list string)) : list string :=
  map (fun row => default "" (row !! i)) sample_rows.

(** The loop that keeps the first 100 data rows. *)
Definition sample_of (rows : list (list string)) : list (list string) := take 100 rows.

Definition quote : string := String (ascii_of_N 34) EmptyString.

(** The types of the columns, in header order: the loop over
    [enumerate(headers)], giving the column definitions. *)
Fixpoint column_defs_from (i : nat) (headers : list string) (sample_rows : list (list string))
  : res (list string) :=
  match headers with
  | [] => Ok []
  | header :: rest =>
      col_type ← guess_column_type (column_values i sample_rows);
      columns ← column_defs_from (S i) rest sample_rows;
      Ok ((quote +:+ header +:+ quote +:+ " " +:+ col_type) :: columns)
  end.

Definition column_defs (headers : list string) (rows : list (list string))
  : res (list string) :=
  column_defs_from 0 headers (sample_of rows).

(** [while len(row) < n: row.append(x)] *)
Definition pad_row {A} (n : nat) (x : A) (row : list A) : list A :=
  (row ++ replicate (n - length row) x)%list.

(** [val if val and val.strip() else None] *)
Definition null_if_blank (val : option string) : option string :=
  match val with
  | Some s => if str_nonempty s && str_nonempty (strip s) then Some s else None
  | None => None
  end.

(** The row that [create_typed_table_from_csv] inserts for a data row. *)
Definition typed_row (n_headers : nat) (row : list string) : list (option string) :=
  map null_if_blank (take n_headers (pad_row n_headers None (Some <$> row))).

(** The row that [import_ev_population_data] inserts for a data row. *)
Definition population_row (row : list string) : list string :=
  take 17 (pad_row 17 "" row).

(** What the load loops do to the outside world: a batch that
    [cursor.executemany] took, and a progress line. *)
Inductive load_event (R : Type) : Type :=
  | ExecuteMany (batch : list R)
  | Progress (count : Z).

Arguments ExecuteMany {R} batch.
Arguments Progress {R} count.

(** The locals of the loop, the output so far, and the state of the
    database behind the cursor. *)
Record load_state (C R : Type) : Type := LoadState {
  batch_data : list R;
  count : Z;
  events : list (load_event R);
  cursor : C
}.

Arguments LoadState {C R} _ _ _ _.
Arguments batch_data {C R} _.
Arguments count {C R} _.
Arguments events {C R} _.
Arguments cursor {C R} _.

(** The loop either goes on, or an insert has raised; the state is then
    the one at the raise, the refused batch still in [batch_data]. *)
Inductive load_run (C E R : Type) : Type :=
  | Running (st : load_state C R)
  | Raised (e : E) (st : load_state C R).

Arguments Running {C E R} st.
Arguments Raised {C E R} e st.

(** How a load ends: the line [Completed: ... records imported], or the
    exception of the insert that refused [batch]. *)
Inductive load_outcome (C E R : Type) : Type :=
  | Completed (count : Z) (c : C)
  | Aborted (e : E) (batch : list R).

Arguments Completed {C E R} count c.
Arguments Aborted {C E R} e batch.

Definition batch_size : Z := 1000.

(** The batches that [executemany] took, and the counts reported. *)
Definition batches_of {R} (evs : list (load_event R)) : list (list R) :=
  flat_map (fun ev => match ev with ExecuteMany b => [b] | Progress _ => [] end) evs.

Definition progress_of {R} (evs : list (load_event R)) : list Z :=
  flat_map (fun ev => match ev with ExecuteMany _ => [] | Progress c => [c] end) evs.

Section LoadLoop.
(** [executemany c batch] is [cursor.executemany(insert_sql, batch)] on a
    database in state [c]: it returns, leaving the database in a new
    state, or raises.  [prepare] is what the loop does to a row before it
    appends it to the batch; [rows] are the rows the reader yields. *)
Context {C E R0 R : Type}.
Variable executemany : C -> list R -> E + C.
Variable prepare : R0 -> R.

(** One turn of [for row in reader]. *)
Definition load_step (st : load_state C R) (row : R0) : load_run C E R :=
  let batch := (batch_data st ++ [prepare row])%list in
  let n := count st + 1 in
  if batch_size <=? Z.of_nat (length batch) then
    match executemany (cursor st) batch with
    | inl e => Raised e (LoadState batch n (events st) (cursor st))
    | inr c =>
        Running (LoadState [] n
                   (events st ++ ExecuteMany batch ::
                      (if n mod 10000 =? 0 then [Progress n] else []))%list
                   c)
    end
  else Running (LoadState batch n (events st) (cursor st)).

(** The loop: an exception leaves it at once. *)
Fixpoint load_loop (rows : list R0) (st : load_state C R) : load_run C E R :=
  match rows with
  | [] => Running st
  | row :: rows' =>
      match load_step st row with
      | Running st' => load_loop rows' st'
      | Raised e st' => Raised e st'
      end
  end.

(** The whole load on a database in state [c0]: the loop, then the
    insertion of what remains; the events in order, and how it ended. *)
Definition load_rows (c0 : C) (rows : list R0)
  : list (load_event R) * load_outcome C E R :=
  match load_loop rows (LoadState [] 0 [] c0) with
  | Raised e st => (events st, Aborted e (batch_data st))
  | Running st =>
      match batch_data st with
      | [] => (events st, Completed (count st) (cursor st))
      | _ =>
          match executemany (cursor st) (batch_data st) with
          | inl e => (events st, Aborted e (batch_data st))
          | inr c =>
              ((events st ++ [ExecuteMany (batch_data st)])%list,
               Completed (count st) c)
          end
      end
  end.

(** The database after [executemany] has taken the batches [bs] one after
    the other, or the first exception. *)
Fixpoint run_batches (c : C) (bs : list (list R)) : E + C :=
  match bs with
  | [] => inr c
  | b :: bs' =>
      match executemany c b with
      | inl e => inl e
      | inr c' => run_batches c' bs'
      end
  end.

(** The invariant of the load loop after the rows [done]: the open batch
    is short of a full one, the batches taken and the open one hold the
    prepared rows in order, every batch taken is a full one, progress was
    reported at the multiples of 10000 so far, and the database is where
    the batches taken have left it. *)
Definition load_invariant (c0 : C) (st : load_state C R) (done : list R0) : Prop :=
  Z.of_nat (length (batch_data st)) < batch_size
  /\ count st = Z.of_nat (length done)
  /\ (concat (batches_of (events st)) ++ batch_data st)%list = map prepare done
  /\ Forall (fun b => Z.of_nat (length b) = batch_size) (batches_of (events st))
  /\ progress_of (events st)
     = List.filter (fun c => c mod 10000 =? 0) (map Z.of_nat (seq 1 (length done)))
  /\ run_batches c0 (batches_of (events st)) = inr (cursor st).

(** What holds when an insert has raised [e] in the loop, after the rows
    [done]: the refused batch is a full one. *)
Definition load_raised (c0 : C) (e : E) (st : load_state C R) (done : list R0) : Prop :=
  Z.of_nat (length (batch_data st)) = batch_size
  /\ (concat (batches_of (events st)) ++ batch_data st)%list = map prepare done
  /\ Forall (fun b => Z.of_nat (length b) = batch_size) (batches_of (events st))
  /\ progress_of (events st)
     = List.filter (fun c => c mod 10000 =? 0)
         (map Z.of_nat (seq 1 (length (concat (batches_of (events st))))))
  /\ run_batches c0 (batches_of (events st)) = inr (cursor st)
  /\ executemany (cursor st) (batch_data st) = inl e.
End LoadLoop.

(** How the loop of [guess_column_type] sees one sampled value: a plain
    number parses and is finite or written with a point; it has a fraction
    when it is written with a point or differs from its integer part; a
    value that does not parse, or is a NaN, is not a number; an infinity
    written without a point is the one case on which the loop raises. *)
Definition is_plain_number (v : string) : bool :=
  match float_of_str v with
  | Ok f => contains_char "." v || float_is_finite f
  | Raise _ => false
  end.

Definition has_fraction (v : string) : bool :=
  contains_char "." v
  || match float_of_str v with
     | Ok f => negb (float_eqb_int f (float_trunc f))
     | Raise _ => false
     end.

Definition is_not_number (v : string) : bool :=
  match float_of_str v with
  | Ok S754_nan => negb (contains_char "." v)
  | Ok _ => false
  | Raise _ => true
  end.

Definition is_bare_infinity (v : string) : bool :=
  match float_of_str v with
  | Ok (S754_infinity _) => negb (contains_char "." v)
  | _ => false
  end.

Definition length_bucket (n : Z) : string :=
  if n <=? 50 then "VARCHAR(100)" else if n <=? 150 then "VARCHAR(200)" else "TEXT".

(** * Properties *)

(** ** Strings *)

Lemma in_all_ascii (a : ascii) : In a all_ascii.
Proof.
  unfold all_ascii. apply in_map_iff. exists (nat_of_ascii a). split.
  - apply ascii_nat_embedding.
  - apply in_seq. pose proof (nat_ascii_bounded a). lia.
Qed.

Lemma lower_pre_spec (a : ascii) : In a (lower_pre (lower_char a)).
Proof.
  unfold lower_pre. apply filter_In. split; [apply in_all_ascii|].
  apply Ascii.eqb_refl.
Qed.

Lemma py_lower_pres (s : string) : In s (lower_pres (py_lower s)).
Proof.
  induction s as [|c r IH]; simpl; [now left|].
  apply in_flat_map. exists c. split; [apply lower_pre_spec|].
  now apply in_map.
Qed.

Lemma str_in_In (s : string) (l : list string) : str_in s l = true <-> In s l.
Proof.
  unfold str_in. rewrite existsb_exists. split.
  - intros (x & Hx & He). apply String.eqb_eq in He. now subst.
  - intros H. exists s. split; [done|apply String.eqb_refl].
Qed.

Lemma str_in_lower (s : string) (l : list string) :
  str_in (py_lower s) l = true -> In s (flat_map lower_pres l).
Proof.
  intros H. apply str_in_In in H. apply in_flat_map.
  exists (py_lower s). split; [done|apply py_lower_pres].
Qed.

Lemma str_nonempty_false (s : string) : str_nonempty s = false -> s = "".
Proof. now destruct s. Qed.

Lemma remove_chars_none (p : ascii -> bool) (s : string) :
  all_chars (fun c => negb (p c)) s = true -> remove_chars p s = s.
Proof.
  induction s as [|c r IH]; simpl; [done|].
  intros H. apply andb_true_iff in H as [Hc Hr].
  apply negb_true_iff in Hc. rewrite Hc. now rewrite IH.
Qed.

Lemma remove_chars_all (p : ascii -> bool) (s : string) :
  all_chars (fun c => negb (p c)) (remove_chars p s) = true.
Proof.
  induction s as [|c r IH]; simpl; [done|].
  destruct (p c) eqn:E; simpl; [done|]. now rewrite E.
Qed.

(** ** Floats *)

Lemma float_of_str_raise (s : string) (e : exn) :
  float_of_str s = Raise e -> e = ValueError.
Proof.
  unfold float_of_str.
  destruct (negb _); [congruence|].
  destruct (if contains_char _ _ then _ else _); [|congruence].
  destruct (parse_float_body _); congruence.
Qed.

Lemma int_of_float_finite (f : spec_float) :
  float_is_finite f = true -> int_of_float f = Ok (float_trunc f).
Proof.
  destruct f as [s|s| |s m e]; simpl; try discriminate; intros _.
  - reflexivity.
  - unfold float_trunc, float_num, float_den. f_equal.
    destruct (0 <=? e) eqn:He.
    + now rewrite Z.quot_1_r.
    + apply Z.leb_gt in He.
      assert (Hd : 0 < 2 ^ (- e)) by (apply Z.pow_pos_nonneg; lia).
      destruct s; simpl.
      * change (Z.neg m) with (- Z.pos m). rewrite Z.quot_opp_l by lia.
        rewrite Z.quot_div_nonneg by lia. reflexivity.
      * rewrite Z.quot_div_nonneg by lia. reflexivity.
Qed.

Lemma numeric_null_not_finite (s : string) :
  str_in (py_lower s) numeric_nulls = true ->
  forall f, float_of_str s = Ok f -> float_is_finite f = false.
Proof.
  intros H f Hf. apply str_in_lower in H.
  assert (Hall : forallb (fun t => match float_of_str t with
                                   | Ok g => negb (float_is_finite g)
                                   | Raise _ => true
                                   end) (flat_map lower_pres numeric_nulls) = true)
    by (vm_compute; reflexivity).
  rewrite forallb_forall in Hall. specialize (Hall s H).
  rewrite Hf in Hall. now apply negb_true_iff.
Qed.

(** ** [clean_string] *)

(** On a string the normalizer never raises, and this is what it returns. *)
Lemma clean_string_str (s : string) :
  clean_string (Some (VStr s)) =
  Ok (if str_nonempty s && negb (str_in (strip s) null_strings)
         && str_nonempty (re_sub_control (strip s))
      then Some (re_sub_control (strip s)) else None).
Proof.
  unfold clean_string. change (truthy (Some (VStr s))) with (str_nonempty s).
  destruct (str_nonempty s); [|reflexivity].
  destruct (str_in (strip s) null_strings); [reflexivity|].
  destruct (str_nonempty (re_sub_control (strip s))); reflexivity.
Qed.

Lemma clean_string_none : clean_string None = Ok None.
Proof. reflexivity. Qed.

(** A returned string is not empty and holds no control character. *)
Lemma clean_string_result (s t : string) :
  clean_string (Some (VStr s)) = Ok (Some t) ->
  str_nonempty t = true /\ t = re_sub_control (strip s)
  /\ all_chars (fun c => negb (is_control c)) t = true.
Proof.
  rewrite clean_string_str.
  destruct (str_nonempty s && _ && _) eqn:E; [|discriminate].
  intros [= <-]. apply andb_true_iff in E as [_ E].
  repeat split; [done|]. apply remove_chars_all.
Qed.

(** A string whose trimmed form is literally one of the spellings that
    the code lists cleans to none. *)
Lemma clean_string_null_spellings (s : string) :
  In (strip s) null_strings -> clean_string (Some (VStr s)) = Ok None.
Proof.
  intros H. rewrite clean_string_str.
  apply str_in_In in H. rewrite H.
  now rewrite andb_false_r.
Qed.

(** The null sentinels of the specification, in lower case. *)
Lemma is_null_sentinel_lower (s : string) :
  is_null_sentinel s = str_in (py_lower (strip s)) ["null"; "none"; "n/a"; ""].
Proof. reflexivity. Qed.

(** C5 (code bug): the code compares the trimmed string with six
    spellings, letter for letter.  On a null sentinel in the sense of the
    specification (one of ["NULL"], ["None"], ["N/A"], [""] up to case),
    [clean_string] returns none only when the trimmed string is exactly
    [""], ["NULL"], ["null"], ["None"], ["N/A"] or ["n/a"]; every other
    capitalisation, such as ["NONE"], ["Null"] or ["N/a"], is returned as
    a cleaned string. *)
Theorem clean_string_sentinel_case (s : string) :
  is_null_sentinel s = true ->
  clean_string (Some (VStr s))
  = Ok (if str_in (strip s) [""; "NULL"; "null"; "None"; "N/A"; "n/a"]
        then None else Some (strip s)).
Proof.
  rewrite is_null_sentinel_lower. intros H. apply str_in_lower in H.
  assert (Hall : forallb (fun t => str_in t [""; "NULL"; "null"; "None"; "N/A"; "n/a"]
                                   || str_nonempty t && String.eqb (re_sub_control t) t)
                   (flat_map lower_pres ["null"; "none"; "n/a"; ""]) = true)
    by (vm_compute; reflexivity).
  rewrite forallb_forall in Hall. specialize (Hall _ H).
  rewrite clean_string_str.
  change null_strings with [""; "NULL"; "null"; "None"; "N/A"; "n/a"].
  destruct (str_in (strip s) _) eqn:Hin.
  - now rewrite andb_false_r.
  - rewrite orb_false_l in Hall. apply andb_true_iff in Hall as [Hne Hre].
    apply String.eqb_eq in Hre. rewrite Hre, Hne.
    destruct s as [|c r]; [discriminate Hne|reflexivity].
Qed.

Lemma clean_string_sentinel_case_witness :
  (is_null_sentinel "NONE" = true
   /\ clean_string (Some (VStr "NONE")) = Ok (Some "NONE"))
  /\ (is_null_sentinel "Null" = true
      /\ clean_string (Some (VStr "Null")) = Ok (Some "Null"))
  /\ (is_null_sentinel " N/a " = true
      /\ clean_string (Some (VStr " N/a ")) = Ok (Some "N/a"))
  /\ (is_null_sentinel " n/a " = true
      /\ clean_string (Some (VStr " n/a ")) = Ok None).
Proof.
  split; [|split; [|split]]; (split; [reflexivity|]).
  - apply (clean_string_sentinel_case "NONE"). reflexivity.
  - apply (clean_string_sentinel_case "Null"). reflexivity.
  - apply (clean_string_sentinel_case " N/a "). reflexivity.
  - apply (clean_string_sentinel_case " n/a "). reflexivity.
Defined.

(** C6: the residue can be a lone blank.  The input is NUL, space, NUL:
    no whitespace to trim at either end, and removing the control
    characters leaves the space. *)
Theorem clean_string_blank_result :
  let s := String "000" (String " " (String "000" EmptyString)) in
  clean_string (Some (VStr s)) = Ok (Some " ")
  /\ strip " " = "".
Proof. split; reflexivity. Qed.

(** ** [clean_numeric], [clean_year] *)

Lemma float_of_str_empty : float_of_str "" = Raise ValueError.
Proof. reflexivity. Qed.

(** C7, as amended: when the symbol-stripped string parses to a finite
    float, the integer kind returns that float truncated toward zero. *)
Theorem clean_numeric_int_truncates (s : string) (f : spec_float) :
  float_of_str (strip_symbols s) = Ok f ->
  float_is_finite f = true ->
  clean_numeric (Some (VStr s)) "int" = Ok (Some (NInt (float_trunc f))).
Proof.
  intros Hp Hfin. unfold clean_numeric. simpl truthy.
  destruct s as [|c r].
  { vm_compute in Hp. discriminate. }
  simpl str_nonempty. simpl negb. cbv iota. simpl py_str.
  destruct (str_in _ numeric_nulls) eqn:Hn.
  { pose proof (numeric_null_not_finite _ Hn f Hp). congruence. }
  rewrite Hp. simpl. rewrite (int_of_float_finite f Hfin). reflexivity.
Qed.

Lemma clean_numeric_int_truncates_witness :
  clean_numeric (Some (VStr "12.9")) "int" = Ok (Some (NInt 12))
  /\ clean_numeric (Some (VStr "-12.9")) "int" = Ok (Some (NInt (-12))).
Proof.
  split.
  - apply (clean_numeric_int_truncates "12.9"
             (S754_finite false 7262054399134925 (-49))); reflexivity.
  - apply (clean_numeric_int_truncates "-12.9"
             (S754_finite true 7262054399134925 (-49))); reflexivity.
Defined.

(** C7, as stated, fails: ["-12.9"] parses to a finite float whose floor
    is -13, and the integer kind returns -12. *)
Lemma clean_numeric_int_not_floor :
  exists f, float_of_str (strip_symbols "-12.9") = Ok f
    /\ float_is_finite f = true
    /\ float_floor f = -13
    /\ clean_numeric (Some (VStr "-12.9")) "int" = Ok (Some (NInt (-12)))
    /\ clean_numeric (Some (VStr "-12.9")) "int" <> Ok (Some (NInt (float_floor f))).
Proof.
  exists (S754_finite true 7262054399134925 (-49)).
  repeat split; try reflexivity.
  vm_compute. discriminate.
Qed.

(** C4: [int(float("inf"))] raises [OverflowError], which the handler for
    [(ValueError, TypeError)] does not catch: the integer kind of
    [clean_numeric], and [clean_year] with it, raise on ["inf"]. *)
Theorem clean_numeric_inf_raises :
  clean_numeric (Some (VStr "inf")) "int" = Raise OverflowError
  /\ clean_year (Some (VStr "inf")) = Raise OverflowError
  /\ clean_numeric (Some (VStr "1e999")) "int" = Raise OverflowError.
Proof. repeat split; reflexivity. Qed.

(** ** [validate_coordinates] *)

Lemma float_if_str (x : option string) :
  float_if (VStr <$> x) =
  match x with
  | Some s => if str_nonempty s then f ← float_of_str s; Ok (Some f) else Ok None
  | None => Ok None
  end.
Proof. destruct x as [s|]; reflexivity. Qed.

Lemma parses_empty (s : string) : str_nonempty s = false -> parses s = None.
Proof. intros H. apply str_nonempty_false in H. now subst. Qed.

(** On raw cells [validate_coordinates] never raises: it returns the two
    coordinates when both are valid, and the pair of nones otherwise. *)
Lemma validate_coordinates_str (lat lng : option string) :
  validate_coordinates (VStr <$> lat) (VStr <$> lng) =
  Ok (match coordinate (-90) 90 lat, coordinate (-180) 180 lng with
      | Some a, Some b => (Some a, Some b)
      | _, _ => (None, None)
      end).
Proof.
  unfold validate_coordinates. rewrite !float_if_str. unfold coordinate, parses.
  destruct lat as [s|]; destruct lng as [t|]; simpl;
    repeat match goal with
    | |- context [str_nonempty ?x] =>
        let E := fresh "E" in
        destruct (str_nonempty x) eqn:E;
        [|apply str_nonempty_false in E; subst x]; simpl
    | |- context [float_of_str ?x] =>
        let E := fresh "E" in
        lazymatch x with
        | EmptyString => rewrite float_of_str_empty
        | _ => destruct (float_of_str x) eqn:E;
               [|apply float_of_str_raise in E; subst]
        end; simpl
    | |- context [in_range ?l ?h ?f] => destruct (in_range l h f); simpl
    end; reflexivity.
Qed.

(** C8: a pair of numbers comes back only when both cells parse and lie in
    their ranges; when exactly one of the two is valid the result is the
    pair of nones; the worked example of the specification. *)
Theorem validate_coordinates_all_or_nothing (lat lng : option string) :
  let r := validate_coordinates (VStr <$> lat) (VStr <$> lng) in
  (forall a b, r = Ok (a, b) -> a <> None \/ b <> None ->
     exists x y, a = Some x /\ b = Some y
       /\ (exists s, lat = Some s /\ float_of_str s = Ok x) /\ in_range (-90) 90 x = true
       /\ (exists t, lng = Some t /\ float_of_str t = Ok y) /\ in_range (-180) 180 y = true)
  /\ (xorb (bool_decide (is_Some (coordinate (-90) 90 lat)))
           (bool_decide (is_Some (coordinate (-180) 180 lng))) = true ->
      r = Ok (None, None))
  /\ validate_coordinates (Some (VStr "45.0")) (Some (VStr "200.0")) = Ok (None, None).
Proof.
  cbv zeta. rewrite validate_coordinates_str. split; [|split].
  - intros a b Hr Hne.
    assert (Hc : forall lo hi x f, coordinate lo hi x = Some f ->
              (exists s, x = Some s /\ float_of_str s = Ok f) /\ in_range lo hi f = true).
    { intros lo hi x f. unfold coordinate, parses.
      destruct x as [s|]; [|discriminate].
      destruct (float_of_str s) as [g|] eqn:E; [|discriminate].
      destruct (in_range lo hi g) eqn:R; [|discriminate].
      intros [= <-]. split; [|done]. now exists s. }
    destruct (coordinate (-90) 90 lat) as [x|] eqn:E1;
      destruct (coordinate (-180) 180 lng) as [y|] eqn:E2;
      injection Hr as <- <-; try (destruct Hne; congruence).
    exists x, y. apply Hc in E1 as [? ?]. apply Hc in E2 as [? ?]. tauto.
  - destruct (coordinate (-90) 90 lat), (coordinate (-180) 180 lng);
      try reflexivity; intros H; vm_compute in H; discriminate.
  - reflexivity.
Qed.

Lemma validate_coordinates_all_or_nothing_witness :
  validate_coordinates (Some (VStr "45.0")) (Some (VStr "200.0")) = Ok (None, None)
  /\ validate_coordinates (Some (VStr " 45.0")) (Some (VStr "-122.3")) =
     Ok (parses "45", parses "-122.3").
Proof.
  split.
  - apply (proj1 (proj2 (validate_coordinates_all_or_nothing (Some "45.0") (Some "200.0")))).
    vm_compute. reflexivity.
  - reflexivity.
Defined.

(** ** The normalizers on raw cells *)

#[local] Arguments str_in : simpl never.
#[local] Arguments strip : simpl never.
#[local] Arguments strip_symbols : simpl never.
#[local] Arguments float_of_str : simpl never.
#[local] Arguments py_lower : simpl never.
#[local] Arguments py_upper : simpl never.
#[local] Arguments py_title : simpl never.
#[local] Arguments re_sub_control : simpl never.
#[local] Arguments float_of_Z : simpl never.
#[local] Arguments in_range : simpl never.
#[local] Arguments String.eqb : simpl never.
#[local] Arguments standardization_map : simpl never.

Lemma raw_row_lookup (raw : gmap string string) (k : string) :
  raw_row raw !! k = VStr <$> (raw !! k).
Proof. apply lookup_fmap. Qed.

Lemma py_or_raw (a b : option string) :
  exists c, py_or (VStr <$> a) (VStr <$> b) = VStr <$> c.
Proof.
  unfold py_or. destruct (truthy (VStr <$> a)); [now exists a|now exists b].
Qed.

Lemma clean_string_raw (x : option string) :
  exists r, clean_string (VStr <$> x) = Ok r.
Proof.
  destruct x as [s|]; simpl; [rewrite clean_string_str|rewrite clean_string_none];
    eexists; reflexivity.
Qed.

Lemma clean_string_truthy (x : option pyval) (t : string) :
  clean_string x = Ok (Some t) -> str_truthy (Some t) = true.
Proof.
  unfold clean_string. destruct (negb (truthy x)); [discriminate|].
  destruct x as [[s| | |]|]; try discriminate.
  destruct (str_in _ _); [discriminate|].
  destruct (str_nonempty (re_sub_control (strip s))) eqn:E; [|discriminate].
  now intros [= <-].
Qed.

Lemma try_caught {A} (m h : res A) (a : A) :
  h = Ok a ->
  (forall e, m = Raise e -> e = ValueError) ->
  exists r, try_except m [ValueError; TypeError] h = Ok r.
Proof.
  intros -> He. destruct m as [x|e]; simpl; [now exists x|].
  rewrite (He e eq_refl). now exists a.
Qed.

Lemma clean_numeric_float_raw (x : option string) :
  exists r, clean_numeric (VStr <$> x) "float" = Ok r.
Proof.
  unfold clean_numeric. destruct (negb (truthy _)); [now eexists|].
  destruct x as [s|]; simpl; [|now eexists].
  destruct (str_in _ numeric_nulls); [now eexists|].
  destruct (float_of_str (strip_symbols s)) as [f|e] eqn:E; simpl; [now eexists|].
  apply float_of_str_raise in E as ->. now eexists.
Qed.

Lemma clean_numeric_int_raw (x : option string) :
  (exists r, clean_numeric (VStr <$> x) "int" = Ok r)
  \/ clean_numeric (VStr <$> x) "int" = Raise OverflowError.
Proof.
  unfold clean_numeric. destruct (negb (truthy _)); [left; now eexists|].
  destruct x as [s|]; simpl; [|left; now eexists].
  destruct (str_in _ numeric_nulls); [left; now eexists|].
  destruct (float_of_str (strip_symbols s)) as [f|e] eqn:E; simpl.
  - destruct f; simpl; first [left; now eexists | now right].
  - apply float_of_str_raise in E as ->. left; now eexists.
Qed.

Lemma clean_year_raw (x : option string) :
  (exists r, clean_year (VStr <$> x) = Ok r)
  \/ clean_year (VStr <$> x) = Raise OverflowError.
Proof.
  unfold clean_year.
  destruct (clean_numeric_int_raw x) as [[r ->]| ->]; simpl; [left|now right].
  destruct r as [y|]; [|now eexists].
  destruct (_ && _); now eexists.
Qed.



Lemma standardization_map_nonempty (k v : string) :
  standardization_map !! k = Some v -> str_nonempty v = true.
Proof.
  intros H. apply elem_of_list_to_map_2 in H.
  repeat (apply elem_of_cons in H as [[= -> ->]|H]; [reflexivity|]).
  now apply elem_of_nil in H.
Qed.

Lemma append_nonempty (a b : string) :
  str_nonempty a = true -> str_nonempty (a +:+ b) = true.
Proof. now destruct a. Qed.

Lemma py_title_nonempty (s : string) :
  str_nonempty s = true -> str_nonempty (py_title s) = true.
Proof.
  destruct s as [|c r]; [discriminate|]. intros _.
  unfold py_title. simpl. apply append_nonempty.
  unfold title_char. destruct (is_lower_letter c); [done|].
  now destruct (code c =? 223)%N.
Qed.

(** On a raw cell [standardize_make] returns a name exactly when
    [clean_string] returns a string. *)
Lemma standardize_make_raw (x : option string) :
  exists r, standardize_make (VStr <$> x) = Ok r
    /\ (is_Some r <-> exists t, clean_string (VStr <$> x) = Ok (Some t))
    /\ (forall m, r = Some m -> str_truthy r = true).
Proof.
  unfold standardize_make.
  destruct (negb (truthy (VStr <$> x))) eqn:T.
  - exists None. split; [done|]. split; [|done]. split; [intros [? ?]; done|].
    intros [t Ht]. unfold clean_string in Ht. rewrite T in Ht. discriminate.
  - destruct (clean_string_raw x) as [r Hr]. rewrite Hr. cbn [mbind res_bind].
    destruct r as [m|].
    + pose proof (clean_string_truthy _ _ Hr) as Ht. rewrite Ht. cbn [negb].
      exists (Some (default (py_title m) (standardization_map !! py_lower m))).
      split; [reflexivity|]. split.
      * split; [intros _; now exists m|intros _; now eexists].
      * intros ? _. unfold str_truthy. cbn [fmap option_fmap option_map truthy].
        destruct (standardization_map !! py_lower m) as [v|] eqn:L; cbn [default].
        -- eapply standardization_map_nonempty; eassumption.
        -- now apply py_title_nonempty.
    + exists None. split; [done|]. split; [|done].
      split; [intros [? ?]; done|intros [? ?]; done].
Qed.

(** ** Records under construction *)

Lemma lookup_put_str_ne (k k' : string) (x : option string) (m : record) :
  k <> k' -> put_str k x m !! k' = m !! k'.
Proof.
  intros H. unfold put_str. destruct x as [s|]; [|done].
  destruct (str_truthy (Some s)); [|done]. now apply lookup_insert_ne.
Qed.

Lemma lookup_put_positive_ne (k k' : string) (x : option pynum) (m : record) :
  k <> k' -> put_positive k x m !! k' = m !! k'.
Proof.
  intros H. unfold put_positive. destruct x as [n|]; [|done].
  destruct (_ && _); [|done]. now apply lookup_insert_ne.
Qed.

Lemma lookup_put_num_ne (k k' : string) (x : option pynum) (m : record) :
  k <> k' -> put_num k x m !! k' = m !! k'.
Proof.
  intros H. unfold put_num. destruct x as [n|]; [|done].
  destruct (num_truthy (Some n)); [|done]. now apply lookup_insert_ne.
Qed.

Lemma lookup_put_long_str_ne (n : Z) (k k' : string) (x : option string) (m : record) :
  k <> k' -> put_long_str n k x m !! k' = m !! k'.
Proof.
  intros H. unfold put_long_str. destruct x as [s|]; [|done].
  destruct (_ && _); [|done]. now apply lookup_insert_ne.
Qed.

Lemma lookup_put_str_eq (k : string) (x : option string) (m : record) :
  put_str k x m !! k = if str_truthy x then VStr <$> x else m !! k.
Proof.
  unfold put_str. destruct x as [s|]; [|done].
  destruct (str_truthy (Some s)); [|done]. now rewrite lookup_insert_eq.
Qed.

Lemma lookup_put_str_none (k : string) (m : record) :
  put_str k None m = m.
Proof. reflexivity. Qed.

Lemma lookup_put_positive_none (k : string) (m : record) :
  put_positive k None m = m.
Proof. reflexivity. Qed.

Ltac lookup_record :=
  repeat first
    [ rewrite lookup_put_str_none
    | rewrite lookup_put_positive_none
    | rewrite lookup_put_str_ne by discriminate
    | rewrite lookup_put_positive_ne by discriminate
    | rewrite lookup_put_num_ne by discriminate
    | rewrite lookup_put_long_str_ne by discriminate
    | rewrite lookup_put_str_eq
    | rewrite lookup_insert_ne by discriminate
    | rewrite lookup_insert_eq
    | rewrite lookup_empty ].

(** Running a cleaner on a single row. *)
Lemma for_rows_single (body : record -> res (option record)) (row : record) :
  for_rows body [row] =
  match body row with
  | Ok (Some r) => Ok [r]
  | Ok None => Ok []
  | Raise e => Raise e
  end.
Proof. simpl. destruct (body row) as [[r|]|e]; reflexivity. Qed.

(** ** The sales cleaner *)



(** ** The charging-station cleaner *)

(** X2: a raw station record that passes the coordinate and the country
    checks and holds the empty string under ['is_fast_dc'] is emitted with
    [is_fast_dc = False]: the key is set.  The other optional cells that
    have a single source column leave their key absent when empty.  The
    one way for such a row not to be emitted is a ['ports'] cell that
    reads as an infinity, on which [clean_numeric] raises. *)
Theorem station_empty_fast_dc_is_false (raw : gmap string string)
    (lat lng : spec_float) (c : string) :
  validate_coordinates (raw_row raw !! "latitude") (raw_row raw !! "longitude")
    = Ok (Some lat, Some lng) ->
  clean_string (py_or (raw_row raw !! "country_code") (raw_row raw !! "country"))
    = Ok (Some c) ->
  raw !! "is_fast_dc" = Some "" ->
  (exists rec, clean_charging_stations_data [raw_row raw] = Ok [rec]
     /\ rec !! "is_fast_dc" = Some (VBool false)
     /\ (forall k, In k ["city"; "ports"; "power_class"; "connector_type"; "status"] ->
           raw !! k = Some "" -> rec !! k = None))
  \/ (clean_numeric (raw_row raw !! "ports") "int" = Raise OverflowError
      /\ clean_charging_stations_data [raw_row raw] = Raise OverflowError).
Proof.
  intros Hco Hct Hfast.
  unfold clean_charging_stations_data. rewrite for_rows_single.
  unfold clean_charging_stations_row. rewrite Hco. cbn [mbind res_bind].
  rewrite Hct. cbn [mbind res_bind].
  rewrite (clean_string_truthy _ _ Hct). cbn [negb].
  rewrite !raw_row_lookup.
  destruct (clean_string_raw (raw !! "city")) as [city Hcity]. rewrite Hcity.
  cbn [mbind res_bind].
  destruct (py_or_raw (raw !! "power_kw") (raw !! "power")) as [pw ->].
  destruct (clean_numeric_float_raw pw) as [power ->]. cbn [mbind res_bind].
  destruct (clean_numeric_int_raw (raw !! "ports")) as [[ports Hports]|Hports];
    rewrite Hports; cbn [mbind res_bind]; [left|right; done].
  destruct (clean_string_raw (raw !! "power_class")) as [power_class Hpc]. rewrite Hpc.
  cbn [mbind res_bind].
  rewrite Hfast. change (VStr <$> Some "") with (Some (VStr "")). cbv iota.
  destruct (clean_string_raw (raw !! "connector_type")) as [connector Hcn]. rewrite Hcn.
  cbn [mbind res_bind].
  destruct (py_or_raw (raw !! "network") (raw !! "operator")) as [nw ->].
  destruct (clean_string_raw nw) as [network ->]. cbn [mbind res_bind].
  destruct (clean_string_raw (raw !! "status")) as [status Hst]. rewrite Hst.
  cbn [mbind res_bind].
  eexists. split; [reflexivity|]. split.
  - lookup_record. reflexivity.
  - intros k Hk Hempty.
    repeat (destruct Hk as [<-|Hk]);
      [ | | | | | destruct Hk ];
      rewrite Hempty in *;
      match goal with
      | H : clean_string (VStr <$> Some "") = Ok _ |- _ =>
          vm_compute in H; injection H as <-
      | H : clean_numeric (VStr <$> Some "") _ = Ok _ |- _ =>
          vm_compute in H; injection H as <-
      end;
      lookup_record; reflexivity.
Qed.

Lemma station_empty_fast_dc_is_false_witness :
  exists rec,
    clean_charging_stations_data
      [raw_row {[ "latitude" := "47.6"; "longitude" := "-122.3"; "country" := "us";
                  "city" := ""; "ports" := "4"; "is_fast_dc" := "" ]}] = Ok [rec]
    /\ rec !! "is_fast_dc" = Some (VBool false)
    /\ rec !! "city" = None.
Proof.
  pose (raw := {[ "latitude" := "47.6"; "longitude" := "-122.3"; "country" := "us";
                  "city" := ""; "ports" := "4"; "is_fast_dc" := "" ]} : gmap string string).
  assert (Hco : validate_coordinates (raw_row raw !! "latitude") (raw_row raw !! "longitude")
                = Ok (Some (S754_finite false 6699104445713613 (-47)),
                      Some (S754_finite true 8606097412928307 (-46))))
    by (vm_compute; reflexivity).
  assert (Hct : clean_string (py_or (raw_row raw !! "country_code") (raw_row raw !! "country"))
                = Ok (Some "us"))
    by (vm_compute; reflexivity).
  assert (Hfast : raw !! "is_fast_dc" = Some "") by (vm_compute; reflexivity).
  destruct (station_empty_fast_dc_is_false raw _ _ _ Hco Hct Hfast)
    as [(rec & Hrec & Hf & Hothers)|[Hraise _]].
  - exists rec. split; [exact Hrec|]. split; [exact Hf|].
    apply Hothers; [simpl; tauto|vm_compute; reflexivity].
  - vm_compute in Hraise. discriminate.
Defined.

(** ** The vehicle cleaner *)

Lemma raw_or_lookup (raw : gmap string string) (k1 k2 : string) :
  exists c, py_or (raw_row raw !! k1) (raw_row raw !! k2) = VStr <$> c.
Proof. rewrite !raw_row_lookup. apply py_or_raw. Qed.

Lemma clean_string_some_truthy (x : option string) (r : option string) :
  clean_string (VStr <$> x) = Ok r -> str_truthy r = bool_decide (is_Some r).
Proof.
  destruct r as [t|]; [|done]. intros H.
  now rewrite (clean_string_truthy _ _ H).
Qed.

(** X3: the acceptance predicate of the vehicle cleaner, for a raw row on
    which the cleaner returns: the row is emitted exactly when make and
    model normalize to a value and the state or the city cleans to a
    string. *)
Lemma population_row_acceptance (raw : gmap string string) (r : option record) :
  clean_ev_population_row (raw_row raw) = Ok r ->
  (is_Some r <->
     (exists mk, standardize_make (py_or (raw_row raw !! "make") (raw_row raw !! "Make"))
                 = Ok (Some mk))
     /\ (exists md, clean_string (py_or (raw_row raw !! "model") (raw_row raw !! "Model"))
                    = Ok (Some md))
     /\ ((exists st, clean_string (py_or (raw_row raw !! "state") (raw_row raw !! "State"))
                     = Ok (Some st))
         \/ (exists ct, clean_string (py_or (raw_row raw !! "city") (raw_row raw !! "City"))
                        = Ok (Some ct)))).
Proof.
  unfold clean_ev_population_row.
  destruct (raw_or_lookup raw "make" "Make") as [cmk ->].
  destruct (raw_or_lookup raw "model" "Model") as [cmd ->].
  destruct (raw_or_lookup raw "state" "State") as [cst ->].
  destruct (raw_or_lookup raw "city" "City") as [cct ->].
  destruct (raw_or_lookup raw "county" "County") as [ccy ->].
  destruct (standardize_make_raw cmk) as (make & -> & _ & Hmk).
  destruct (clean_string_raw cmd) as [model Hmd]. rewrite Hmd.
  cbn [mbind res_bind].
  destruct make as [mk|]; [|intros [= <-]; split; [intros [? ?]; done|intros [[? ?] _]; done]].
  destruct model as [md|]; [|intros [= <-]; split; [intros [? ?]; done|intros (_ & [? ?] & _); done]].
  rewrite (Hmk mk eq_refl), (clean_string_truthy _ _ Hmd). cbn [negb orb].
  destruct (clean_string_raw cst) as [state Hst]. rewrite Hst.
  destruct (clean_string_raw cct) as [city Hct]. rewrite Hct.
  destruct (clean_string_raw ccy) as [county ->].
  repeat match goal with
         | |- (mbind _ ?m = _ -> _) =>
             destruct m as [?|?]; cbn [mbind res_bind]; [|intros [=]]
         end.
  lookup_record.
  rewrite (clean_string_some_truthy _ _ Hst), (clean_string_some_truthy _ _ Hct).
  change (truthy (Some (VStr mk))) with (str_truthy (Some mk)).
  change (truthy (Some (VStr md))) with (str_truthy (Some md)).
  rewrite (Hmk mk eq_refl), (clean_string_truthy _ _ Hmd). cbn [andb].
  assert (Hc : truthy (py_or (if bool_decide (is_Some state) then VStr <$> state else None)
                             (if bool_decide (is_Some city) then VStr <$> city else None))
               = bool_decide (is_Some state) || bool_decide (is_Some city)).
  { assert (Hs : forall t : string, bool_decide (is_Some (Some t)) = true)
      by (intros t; apply bool_decide_eq_true_2; now exists t).
    assert (Hn : bool_decide (is_Some (@None string)) = false)
      by (apply bool_decide_eq_false_2; intros [? ?]; discriminate).
    destruct state as [st|], city as [ct|]; rewrite ?Hs, ?Hn; unfold py_or;
      try (apply clean_string_truthy in Hst;
           change (truthy (VStr <$> Some st)) with (str_truthy (Some st)); rewrite Hst);
      try (apply clean_string_truthy in Hct;
           change (truthy (VStr <$> Some ct)) with (str_truthy (Some ct)));
      cbn [truthy]; rewrite ?Hst, ?Hct; try reflexivity.
    - exact Hst.
    - exact Hst.
    - exact Hct. }
  rewrite Hc. clear Hc.
  destruct state as [st|], city as [ct|]; cbn; intros [= <-]; split;
    try (intros _; eexists; reflexivity);
    try (intros _; repeat split; eauto; fail).
  - intros [? ?]; discriminate.
  - intros (_ & _ & [[? ?]|[? ?]]); discriminate.
Qed.

Lemma population_row_acceptance_witness :
  let raw : gmap string string :=
    {[ "make" := "tesla"; "model" := "Model 3"; "state" := "WA"; "model_year" := "2021" ]} in
  let rec : record :=
    {[ "make" := VStr "Tesla"; "model" := VStr "Model 3"; "state" := VStr "WA";
       "model_year" := VInt 2021 ]} in
  clean_ev_population_row (raw_row raw) = Ok (Some rec)
  /\ (exists mk, standardize_make (py_or (raw_row raw !! "make") (raw_row raw !! "Make"))
                 = Ok (Some mk))
  /\ (exists md, clean_string (py_or (raw_row raw !! "model") (raw_row raw !! "Model"))
                 = Ok (Some md)).
Proof.
  intros raw rec.
  assert (H : clean_ev_population_row (raw_row raw) = Ok (Some rec))
    by (vm_compute; reflexivity).
  split; [exact H|].
  destruct (proj1 (population_row_acceptance raw (Some rec) H)) as (Hmk & Hmd & _).
  - now exists rec.
  - split; assumption.
Defined.

(** ** The load loops of [setup_databases.py] *)

Section Load.
Context {C E R0 R : Type}.
Variable executemany : C -> list R -> E + C.
Variable prepare : R0 -> R.
Variable c0 : C.

Lemma batches_of_app (a b : list (load_event R)) :
    batches_of (a ++ b) = (batches_of a ++ batches_of b)%list.
Proof. unfold batches_of. apply flat_map_app. Qed.

Lemma progress_of_app (a b : list (load_event R)) :
    progress_of (a ++ b) = (progress_of a ++ progress_of b)%list.
Proof. unfold progress_of. apply flat_map_app. Qed.

Lemma run_batches_snoc (c c' : C) (bs : list (list R)) (b : list R) :
    run_batches executemany c bs = inr c' ->
    run_batches executemany c (bs ++ [b]) = executemany c' b.
Proof.
    revert c. induction bs as [|b0 bs IH]; intros c; cbn [run_batches app].
    - intros [= ->]. now destruct (executemany c' b).
    - destruct (executemany c b0) as [e|c1]; [discriminate|]. apply IH.
Qed.

Lemma load_invariant_init : load_invariant executemany prepare c0 (LoadState [] 0 [] c0) [].
Proof.
    unfold load_invariant, batch_size. cbn [batch_data count events cursor length].
    repeat split. constructor.
Qed.

Lemma full_batches_length (l : list (list R)) :
    Forall (fun b => Z.of_nat (length b) = batch_size) l ->
    Z.of_nat (length (concat l)) = batch_size * Z.of_nat (length l).
Proof.
    induction 1 as [|b l Hb _ IH]; cbn [concat length]; [lia|].
    rewrite length_app. lia.
Qed.

Lemma no_batches_in_progress (n : Z) :
    batches_of (if n mod 10000 =? 0 then [@Progress R n] else []) = [].
Proof. destruct (_ =? _); reflexivity. Qed.

(** No multiple of 10000 lies strictly between two successive multiples
    of 1000. *)
Lemma progress_window (a b : nat) :
    Z.of_nat a mod 1000 = 0 -> Z.of_nat b < 1000 ->
    List.filter (fun c => c mod 10000 =? 0) (map Z.of_nat (seq 1 (a + b)))
    = List.filter (fun c => c mod 10000 =? 0) (map Z.of_nat (seq 1 a)).
Proof.
    intros Ha. induction b as [|b IH]; intros Hb.
    - now rewrite Nat.add_0_r.
    - rewrite Nat.add_succ_r, seq_S, map_app, List.filter_app, IH by lia.
      cbn [map List.filter].
      assert (Hmod : (Z.of_nat (1 + (a + b)) mod 10000 =? 0) = false).
      { apply Z.eqb_neq. intros H0.
        assert (Hm : Z.of_nat (1 + (a + b)) mod 1000 = 0).
        { apply Z.mod_divide in H0; [|lia]. destruct H0 as [q Hq].
          apply Z.mod_divide; [lia|]. exists (10 * q). lia. }
        apply Z.mod_divide in Ha; [|lia]. destruct Ha as [q Hq].
        replace (Z.of_nat (1 + (a + b))) with (Z.of_nat (S b) + q * 1000) in Hm by lia.
        rewrite Z.mod_add in Hm by lia.
        rewrite Z.mod_small in Hm by lia. lia. }
      rewrite Hmod. now rewrite app_nil_r.
Qed.

Lemma load_invariant_step (st : load_state C R) (done : list R0) (row : R0) :
    load_invariant executemany prepare c0 st done ->
    match load_step executemany prepare st row with
    | Running st' => load_invariant executemany prepare c0 st' (done ++ [row])
    | Raised e st' => load_raised executemany prepare c0 e st' (done ++ [row])
    end.
Proof.
    intros (Hlen & Hcount & Hrows & Hfull & Hprog & Hrun).
    pose proof (full_batches_length _ Hfull) as Hsize.
    assert (Hdone : length done
                    = (length (concat (batches_of (events st)))
                       + length (batch_data st))%nat).
    { now rewrite <- length_app, Hrows, length_map. }
    assert (Hseq : map Z.of_nat (seq 1 (length (done ++ [row])))
                   = (map Z.of_nat (seq 1 (length done)) ++ [Z.of_nat (length done) + 1])%list).
    { rewrite length_app. cbn [length]. rewrite Nat.add_1_r, seq_S, map_app.
      cbn [map]. do 3 f_equal. lia. }
    assert (Hmult : Z.of_nat (length (concat (batches_of (events st)))) mod 1000 = 0).
    { rewrite Hsize. unfold batch_size. rewrite Z.mul_comm. apply Z.mod_mul. lia. }
    unfold load_step. rewrite length_app. cbn [length].
    unfold batch_size in *.
    destruct (1000 <=? Z.of_nat (length (batch_data st) + 1)) eqn:Hflush.
    - apply Z.leb_le in Hflush.
      destruct (executemany (cursor st) (batch_data st ++ [prepare row])) as [e|c] eqn:Hex.
      + unfold load_raised, batch_size. cbn [batch_data count events cursor].
        split; [rewrite length_app; cbn [length]; lia|].
        split; [rewrite map_app, <- Hrows; cbn [map]; now rewrite app_assoc|].
        split; [exact Hfull|].
        split; [|split; [exact Hrun|exact Hex]].
        rewrite Hprog, Hdone. apply progress_window; [exact Hmult|lia].
      + unfold load_invariant, batch_size. cbn [batch_data count events cursor].
        rewrite batches_of_app, progress_of_app.
        change (batches_of (ExecuteMany (batch_data st ++ [prepare row]) ::
                  (if (count st + 1) mod 10000 =? 0 then [Progress (count st + 1)] else [])))
          with ((batch_data st ++ [prepare row])%list ::
                  batches_of (if (count st + 1) mod 10000 =? 0
                              then [@Progress R (count st + 1)] else [])).
        change (progress_of (ExecuteMany (batch_data st ++ [prepare row]) ::
                  (if (count st + 1) mod 10000 =? 0 then [Progress (count st + 1)] else [])))
          with (progress_of (if (count st + 1) mod 10000 =? 0
                             then [@Progress R (count st + 1)] else [])).
        rewrite no_batches_in_progress.
        split; [cbn [length]; lia|].
        split; [rewrite length_app; cbn [length]; lia|].
        split.
        { rewrite app_nil_r, concat_app. cbn [concat]. rewrite app_nil_r, map_app.
          cbn [map]. now rewrite <- Hrows, app_assoc. }
        split.
        { apply Forall_app. split; [exact Hfull|].
          constructor; [|constructor]. rewrite length_app. cbn [length]. lia. }
        split.
        { rewrite Hseq, List.filter_app, Hprog, Hcount. cbn [List.filter]. f_equal.
          destruct (_ =? _); reflexivity. }
        rewrite (run_batches_snoc _ _ _ _ Hrun). exact Hex.
    - apply Z.leb_gt in Hflush.
      unfold load_invariant, batch_size. cbn [batch_data count events cursor].
      split; [rewrite length_app; cbn [length]; lia|].
      split; [rewrite length_app; cbn [length]; lia|].
      split; [rewrite map_app, <- Hrows; cbn [map]; now rewrite app_assoc|].
      split; [exact Hfull|].
      split; [|exact Hrun].
      rewrite Hprog, length_app. cbn [length]. rewrite Hdone.
      rewrite (progress_window _ (length (batch_data st))) by (exact Hmult || lia).
      rewrite <- Nat.add_assoc.
      rewrite (progress_window _ (length (batch_data st) + 1)) by (exact Hmult || lia).
      reflexivity.
Qed.

Lemma load_invariant_loop (rows : list R0) (st : load_state C R) (done : list R0) :
    load_invariant executemany prepare c0 st done ->
    match load_loop executemany prepare rows st with
    | Running st' => load_invariant executemany prepare c0 st' (done ++ rows)
    | Raised e st' =>
        exists used later,
          rows = (used ++ later)%list
          /\ load_raised executemany prepare c0 e st' (done ++ used)
    end.
Proof.
    revert st done. induction rows as [|row rows IH]; intros st done H; cbn [load_loop].
    - now rewrite app_nil_r.
    - pose proof (load_invariant_step st done row H) as Hstep.
      destruct (load_step executemany prepare st row) as [st'|e st'].
      + specialize (IH st' (done ++ [row])%list Hstep).
        destruct (load_loop executemany prepare rows st') as [st2|e st2].
        * now rewrite <- app_assoc in IH.
        * destruct IH as (used & later & -> & Hr).
          exists (row :: used), later. split; [reflexivity|].
          now rewrite <- app_assoc in Hr.
      + exists [row], rows. split; [reflexivity|exact Hstep].
Qed.
End Load.


(** X5: whatever the database does, the load loop reports progress exactly
    at the multiples of 10000 up to the number of rows inserted, in
    increasing order.  In a load that completes, that number is the number
    of rows; in a load that an insert aborts, it is smaller: the rows of
    the refused batch are not inserted, and a count reached by that batch
    is not reported. *)
Theorem load_rows_progress {C E R0 R : Type} (executemany : C -> list R -> E + C)
    (prepare : R0 -> R) (c0 : C) (rows : list R0) :
  let evs := fst (load_rows executemany prepare c0 rows) in
  let inserted := length (concat (batches_of evs)) in
  progress_of evs
  = List.filter (fun c => c mod 10000 =? 0) (map Z.of_nat (seq 1 inserted))
  /\ match snd (load_rows executemany prepare c0 rows) with
     | Completed _ _ => inserted = length rows
     | Aborted _ _ => (inserted < length rows)%nat
     end.
Proof.
  cbv zeta. unfold load_rows.
  pose proof (load_invariant_loop executemany prepare c0 rows _ []
                (load_invariant_init executemany prepare c0)) as H.
  destruct (load_loop executemany prepare rows (LoadState [] 0 [] c0)) as [st|e st].
  - rewrite app_nil_l in H.
    destruct H as (Hlen & Hcount & Hrows & Hfull & Hprog & _).
    pose proof (full_batches_length _ Hfull) as Hsize.
    assert (Hmult : Z.of_nat (length (concat (batches_of (events st)))) mod 1000 = 0).
    { rewrite Hsize. unfold batch_size. rewrite Z.mul_comm. apply Z.mod_mul. lia. }
    assert (Hdone : length rows
                    = (length (concat (batches_of (events st)))
                       + length (batch_data st))%nat).
    { now rewrite <- length_app, Hrows, length_map. }
    unfold batch_size in *.
    destruct (batch_data st) as [|r l] eqn:Hb; cbn [fst snd].
    + cbn [length] in Hdone. rewrite Nat.add_0_r in Hdone.
      split; [now rewrite Hprog, Hdone|now symmetry].
    + destruct (executemany (cursor st) (r :: l)) as [e|c]; cbn [fst snd].
      * split; [|cbn [length] in Hdone; lia].
        rewrite Hprog, Hdone. apply progress_window; [exact Hmult|lia].
      * rewrite batches_of_app, progress_of_app. cbn [batches_of progress_of flat_map app].
        rewrite app_nil_r, concat_app. cbn [concat]. rewrite app_nil_r, Hrows, length_map.
        split; [exact Hprog|reflexivity].
  - destruct H as (used & later & -> & Hlen & Hrows & _ & Hprog & _).
    rewrite app_nil_l in Hrows. unfold batch_size in *. cbn [fst snd].
    split; [exact Hprog|].
    apply (f_equal (@length R)) in Hrows.
    rewrite length_app, length_map in Hrows. rewrite length_app. lia.
Qed.

(** A load of 1500 rows into a database that takes full batches only: the
    first 1000 rows are inserted, and the exception of the second insert
    ends the load. *)
Example load_rows_refused_batch :
  let executemany (c : nat) (batch : list nat) :=
    if (length batch =? 1000)%nat then inr (S c) else inl "refused" in
  load_rows executemany (fun row => row) 0%nat (seq 0 1500)
  = ([ExecuteMany (seq 0 1000)], Aborted "refused" (seq 1000 500)).
Proof. vm_compute. reflexivity. Qed.

(** X6: the row that the typed load inserts has exactly as many cells as
    the header; a cell within the header's width holds the source cell
    unchanged (not trimmed) unless that cell is empty or blank, which
    becomes a null; a cell the source row lacks is a null. *)
Theorem typed_row_cells (n : nat) (row : list string) :
  length (typed_row n row) = n
  /\ forall i, (i < n)%nat ->
       typed_row n row !! i
       = Some (match row !! i with
               | Some s => if str_nonempty (strip s) then Some s else None
               | None => None
               end).
Proof.
  unfold typed_row, pad_row. split.
  - rewrite length_map, length_take, length_app, length_replicate, length_fmap. lia.
  - intros i Hi. rewrite list_lookup_fmap, lookup_take_lt by exact Hi.
    destruct (decide (i < length row)%nat) as [Hlt|Hge].
    + rewrite lookup_app_l by (now rewrite length_fmap).
      rewrite list_lookup_fmap.
      destruct (lookup_lt_is_Some_2 row i Hlt) as [s ->]. cbn.
      destruct (str_nonempty s) eqn:E; [reflexivity|].
      apply str_nonempty_false in E. now subst.
    + rewrite lookup_app_r by (rewrite length_fmap; lia).
      rewrite lookup_replicate_2 by (rewrite length_fmap; lia).
      rewrite (lookup_ge_None_2 row i) by lia. reflexivity.
Qed.

Lemma typed_row_cells_witness :
  typed_row 3 [" a "; "  "; "x"; "dropped"] = [Some " a "; None; Some "x"]
  /\ typed_row 3 ["only"] !! 2%nat = Some None.
Proof.
  split; [reflexivity|].
  rewrite (proj2 (typed_row_cells 3 ["only"]) 2%nat); [reflexivity|lia].
Defined.

(** X7: the row that [import_ev_population_data] inserts has exactly 17
    cells: the first 17 cells of the source row, completed with empty
    strings when the source row is shorter. *)
Theorem population_row_cells (row : list string) :
  length (population_row row) = 17%nat
  /\ forall i, (i < 17)%nat -> population_row row !! i = Some (default "" (row !! i)).
Proof.
  unfold population_row, pad_row. split.
  - rewrite length_take, length_app, length_replicate. lia.
  - intros i Hi. rewrite lookup_take_lt by exact Hi.
    destruct (decide (i < length row)%nat) as [Hlt|Hge].
    + rewrite lookup_app_l by exact Hlt.
      now destruct (lookup_lt_is_Some_2 row i Hlt) as [s ->].
    + rewrite lookup_app_r by lia.
      rewrite lookup_replicate_2 by lia.
      now rewrite (lookup_ge_None_2 row i) by lia.
Qed.

Lemma population_row_cells_witness :
  population_row ["5YJ3"; "King"] !! 1%nat = Some "King"
  /\ population_row ["5YJ3"; "King"] !! 16%nat = Some "".
Proof.
  split.
  - rewrite (proj2 (population_row_cells ["5YJ3"; "King"]) 1%nat); [reflexivity|lia].
  - rewrite (proj2 (population_row_cells ["5YJ3"; "King"]) 16%nat); [reflexivity|lia].
Defined.

(** ** [detect_data_type] and the dispatch of [process_all_files] *)

Lemma lower_char_idem (c : ascii) : lower_char (lower_char c) = lower_char c.
Proof. destruct c as [[] [] [] [] [] [] [] []]; reflexivity. Qed.

Lemma py_lower_idem (s : string) : py_lower (py_lower s) = py_lower s.
Proof.
  induction s as [|c r IH]; [reflexivity|].
  change (py_lower (String c r)) with (String (lower_char c) (py_lower r)).
  change (py_lower (String (lower_char c) (py_lower r)))
    with (String (lower_char (lower_char c)) (py_lower (py_lower r))).
  now rewrite lower_char_idem, IH.
Qed.

Lemma prefix_split (p s : string) :
  String.prefix p s = true <-> exists r, s = p +:+ r.
Proof.
  revert s. induction p as [|c p IH]; intros s.
  - split; [intros _; now exists s|intros _; now destruct s].
  - destruct s as [|d s]; [split; [discriminate|intros [r Hr]; discriminate]|].
    cbn [String.prefix String.append].
    destruct (Ascii.ascii_dec c d) as [->|Hne].
    + rewrite IH. split; intros [r Hr]; exists r; [now subst|now injection Hr].
    + split; [discriminate|]. intros [r Hr]. injection Hr as -> _. contradiction.
Qed.

Lemma py_contains_split (sub s : string) :
  py_contains sub s = true <-> exists a b, s = a +:+ sub +:+ b.
Proof.
  induction s as [|c s IH].
  - cbn [py_contains]. rewrite orb_false_r, prefix_split. split.
    + intros [r Hr]. now exists EmptyString, r.
    + intros (a & b & H). destruct a; [now exists b|discriminate].
  - cbn [py_contains]. rewrite orb_true_iff, prefix_split, IH. split.
    + intros [[r Hr]|(a & b & H)].
      * now exists EmptyString, r.
      * exists (String c a), b. now rewrite H.
    + intros (a & b & H). destruct a as [|d a].
      * left. now exists b.
      * right. injection H as -> ->. now exists a, b.
Qed.

Lemma append_assoc (a b c : string) : (a +:+ b) +:+ c = a +:+ (b +:+ c).
Proof.
  induction a as [|x a IH]; [reflexivity|].
  change (String x ((a +:+ b) +:+ c) = String x (a +:+ (b +:+ c))). now rewrite IH.
Qed.

Lemma py_contains_middle (x y z s : string) :
  py_contains (x +:+ y +:+ z) s = true -> py_contains y s = true.
Proof.
  rewrite !py_contains_split. intros (a & b & ->).
  exists (a +:+ x), (z +:+ b). now rewrite !append_assoc.
Qed.

(** The detected kind depends on the lower-cased name only; the test
    for ["charging_station"] adds nothing to the one for ["station"], so a
    name is a charging-station file exactly when it holds ["station"] and
    neither ["population"] nor ["vehicle"]; it is generic exactly when it
    holds none of population, vehicle, station, sales, iea, global; the
    vehicle keywords win over all others. *)
Lemma detect_data_type_cases (filename : string) :
  let has k := py_contains k (py_lower filename) in
  detect_data_type (py_lower filename) = detect_data_type filename
  /\ (detect_data_type filename = "ev_population"
      <-> has "population" || has "vehicle" = true)
  /\ (detect_data_type filename = "charging_stations"
      <-> has "station" && negb (has "population" || has "vehicle") = true)
  /\ (detect_data_type filename = "generic"
      <-> has "population" || has "vehicle" || has "station"
          || has "sales" || has "iea" || has "global" = false).
Proof.
  cbv zeta. unfold detect_data_type. rewrite py_lower_idem.
  split; [reflexivity|].
  set (f := py_lower filename).
  assert (Hcs : py_contains "charging_station" f = true -> py_contains "station" f = true)
    by apply (py_contains_middle "charging_" "station" "").
  destruct (py_contains "population" f), (py_contains "vehicle" f),
    (py_contains "charging_station" f), (py_contains "station" f),
    (py_contains "sales" f), (py_contains "iea" f), (py_contains "global" f);
    try (specialize (Hcs eq_refl); discriminate);
    cbn; repeat split; intros; try reflexivity; try discriminate.
Qed.

(** X8: the detected kind depends on the lower-cased name only; a name is
    a vehicle file exactly when it holds ["population"] or ["vehicle"],
    whatever else it holds; it is a charging-station file exactly when it
    holds ["station"] and neither of those two (the separate test for
    ["charging_station"] adds nothing); it is generic exactly when it
    holds none of population, vehicle, station, sales, iea, global. *)
Theorem detect_data_type_keywords (filename : string) :
  let has k := py_contains k (py_lower filename) in
  detect_data_type (py_lower filename) = detect_data_type filename
  /\ (detect_data_type filename = "ev_population"
      <-> has "population" || has "vehicle" = true)
  /\ (detect_data_type filename = "charging_stations"
      <-> has "station" && negb (has "population" || has "vehicle") = true)
  /\ (detect_data_type filename = "generic"
      <-> has "population" || has "vehicle" || has "station"
          || has "sales" || has "iea" || has "global" = false).
Proof. exact (detect_data_type_cases filename). Qed.

(** X9: [process_all_files] runs a cleaner on a file exactly when some row
    was loaded and the lower-cased stem holds one of the keywords
    population, vehicle, station, sales, iea, global; any other file is
    skipped. *)
Theorem process_file_skips (stem : string) (raw_data : list record) :
  let has k := py_contains k (py_lower stem) in
  process_file stem raw_data = None
  <-> raw_data = []
      \/ has "population" || has "vehicle" || has "station"
         || has "sales" || has "iea" || has "global" = false.
Proof.
  cbv zeta.
  destruct (detect_data_type_cases stem) as (_ & Hp & Hc & Hg).
  unfold process_file. destruct raw_data as [|row rest]; [tauto|].
  rewrite <- Hg. unfold clean_detected.
  assert (Hcases : detect_data_type stem = "ev_population"
                   \/ detect_data_type stem = "charging_stations"
                   \/ detect_data_type stem = "ev_sales"
                   \/ detect_data_type stem = "generic").
  { unfold detect_data_type.
    repeat match goal with
           | |- context [if ?c then _ else _] => destruct c
           end; auto. }
  destruct Hcases as [H|[H|[H|H]]]; rewrite H; cbn;
    (split; [intros; try discriminate; auto|intros [?|?]; try discriminate; auto]).
Qed.

(** ** [save_cleaned_data] *)

Lemma all_fields_foldl (data : list record) (acc : gset string) (f : string) :
  f ∈ foldl (fun fields rec => fields ∪ dom rec) acc data
  <-> f ∈ acc \/ exists rec, rec ∈ data /\ f ∈ dom rec.
Proof.
  revert acc. induction data as [|r data IH]; intros acc; cbn [foldl].
  - split; [now left|]. intros [H|(rec & H & _)]; [done|]. now apply elem_of_nil in H.
  - rewrite IH, elem_of_union. split.
    + intros [[H|H]|(rec & H1 & H2)].
      * now left.
      * right. exists r. split; [apply list_elem_of_here|done].
      * right. exists rec. split; [now apply list_elem_of_further|done].
    + intros [H|(rec & H1 & H2)]; [now left; left|].
      apply elem_of_cons in H1 as [->|H1]; [now left; right|].
      right. now exists rec.
Qed.

Lemma standardized_record_lookup (fields : gset string) (rec : record) (f : string) :
  standardized_record fields rec !! f
  = if decide (f ∈ fields) then Some (rec !! f) else None.
Proof.
  unfold standardized_record.
  destruct (set_to_map _ fields !! f) as [v|] eqn:E.
  - apply lookup_set_to_map in E as (y & Hy & [= -> <-]); [|naive_solver].
    now rewrite decide_True.
  - destruct (decide (f ∈ fields)) as [Hin|]; [|done].
    assert (Hs : (set_to_map (fun field => (field, rec !! field)) fields
                    : gmap string (option pyval)) !! f = Some (rec !! f)).
    { apply lookup_set_to_map; [naive_solver|]. now exists f. }
    congruence.
Qed.

(** X10: [save_cleaned_data] writes one row per record; every written row
    has the same columns, the union of the keys of all the records; on a
    key the record has, the row holds the record's value, and on any other
    column it holds a null. *)
Theorem standardized_data_columns (data : list record) :
  length (standardized_data data) = length data
  /\ (forall f, f ∈ all_fields data <-> exists rec, rec ∈ data /\ f ∈ dom rec)
  /\ forall i rec, data !! i = Some rec ->
       exists row, standardized_data data !! i = Some row
         /\ dom row = all_fields data
         /\ (forall f v, rec !! f = Some v -> row !! f = Some (Some v))
         /\ (forall f, f ∈ all_fields data -> rec !! f = None -> row !! f = Some None).
Proof.
  assert (Hall : forall f, f ∈ all_fields data <-> exists rec, rec ∈ data /\ f ∈ dom rec).
  { intros f. unfold all_fields. rewrite all_fields_foldl, elem_of_empty. tauto. }
  split; [unfold standardized_data; apply length_map|]. split; [exact Hall|].
  intros i rec Hi. exists (standardized_record (all_fields data) rec). split.
  { unfold standardized_data. change (@map) with (@fmap list _).
    now rewrite list_lookup_fmap, Hi. }
  split.
  { apply set_eq. intros f. rewrite elem_of_dom, standardized_record_lookup.
    destruct (decide (f ∈ all_fields data)); [|split; [intros [? ?]; done|done]].
    split; [done|]. intros _. now eexists. }
  split.
  - intros f v Hf. rewrite standardized_record_lookup, decide_True; [now rewrite Hf|].
    apply Hall. exists rec. split; [eapply list_elem_of_lookup_2; eassumption|].
    apply elem_of_dom. rewrite Hf. now eexists.
  - intros f Hin Hf. now rewrite standardized_record_lookup, decide_True, Hf.
Qed.

Lemma standardized_data_columns_witness :
  let data : list record :=
    [ {[ "region" := VStr "EU"; "year" := VInt 2020 ]};
      {[ "region" := VStr "US"; "year" := VInt 2021; "unit" := VStr "%" ]} ] in
  exists row, standardized_data data !! 0%nat = Some row
    /\ row !! "region" = Some (Some (VStr "EU"))
    /\ row !! "unit" = Some None.
Proof.
  intros data.
  destruct (proj2 (proj2 (standardized_data_columns data)) 0%nat
              {[ "region" := VStr "EU"; "year" := VInt 2020 ]} eq_refl)
    as (row & Hrow & _ & Hkeep & Hnull).
  exists row. split; [exact Hrow|]. split.
  - apply Hkeep. reflexivity.
  - apply Hnull; [|reflexivity].
    apply (proj1 (proj2 (standardized_data_columns data))).
    exists {[ "region" := VStr "US"; "year" := VInt 2021; "unit" := VStr "%" ]}.
    split; [apply list_elem_of_further, list_elem_of_here|].
    apply elem_of_dom. now eexists.
Defined.

(** ** Invariants of the normalizers *)

Lemma clean_numeric_int_kind (x : option pyval) (n : pynum) :
  clean_numeric x "int" = Ok (Some n) -> exists z, n = NInt z.
Proof.
  unfold clean_numeric. destruct (negb (truthy x)); [discriminate|].
  destruct x as [v|]; [|discriminate].
  destruct (str_in _ numeric_nulls); [discriminate|].
  change (String.eqb "int" "int") with true. cbv iota.
  destruct (float_of_str _) as [f|e]; cbn [mbind res_bind try_except].
  - destruct (int_of_float f) as [z|e]; cbn [mbind res_bind try_except].
    + intros [= <-]. now exists z.
    + destruct (existsb _ _); discriminate.
  - destruct (existsb _ _); discriminate.
Qed.

Lemma clean_numeric_float_kind (x : option pyval) (n : pynum) :
  clean_numeric x "float" = Ok (Some n) -> exists f, n = NFloat f.
Proof.
  unfold clean_numeric. destruct (negb (truthy x)); [discriminate|].
  destruct x as [v|]; [|discriminate].
  destruct (str_in _ numeric_nulls); [discriminate|].
  change (String.eqb "float" "int") with false. cbv iota.
  destruct (float_of_str _) as [f|e]; cbn [mbind res_bind try_except].
  - intros [= <-]. now exists f.
  - destruct (existsb _ _); discriminate.
Qed.

Lemma clean_year_range (x : option pyval) (y : pynum) :
  clean_year x = Ok (Some y) -> exists z, y = NInt z /\ 1990 <= z <= 2030.
Proof.
  unfold clean_year.
  destruct (clean_numeric x "int") as [[n|]|e] eqn:E; cbn [mbind res_bind];
    try discriminate.
  destruct (clean_numeric_int_kind _ _ E) as [z ->].
  destruct (num_truthy _ && int_le_num 1990 (NInt z) && num_le_int (NInt z) 2030) eqn:C;
    [|discriminate].
  intros [= <-]. exists z. split; [reflexivity|].
  apply andb_true_iff in C as [C C2]. apply andb_true_iff in C as [_ C1].
  cbn [int_le_num num_le_int] in *. lia.
Qed.

(** X11: whatever value [clean_year] is given (a string, a number, nothing),
    a year it returns is an integer between 1990 and 2030 inclusive; so
    ["1985"] and ["2031"] give none, ["2015"] gives 2015, and ["2030.9"]
    gives 2030, the range being tested after the truncation. *)
Theorem clean_year_in_range (x : option pyval) (y : pynum) :
  clean_year x = Ok (Some y) ->
  (exists z, y = NInt z /\ 1990 <= z <= 2030)
  /\ clean_year (Some (VStr "1985")) = Ok None
  /\ clean_year (Some (VStr "2015")) = Ok (Some (NInt 2015))
  /\ clean_year (Some (VStr "2030.9")) = Ok (Some (NInt 2030))
  /\ clean_year (Some (VStr "2031")) = Ok None.
Proof.
  intros H. split; [now apply clean_year_range in H|].
  repeat split; reflexivity.
Qed.

Lemma clean_year_in_range_witness :
  exists z, NInt 2021 = NInt z /\ 1990 <= z <= 2030.
Proof.
  apply (clean_year_in_range (Some (VStr " 2,021 ")) (NInt 2021)). reflexivity.
Defined.

(** ** The loop of the cleaners *)

Lemma for_rows_app (body : record -> res (option record)) (a b : list record)
    (oa : list record) :
  for_rows body a = Ok oa ->
  for_rows body (a ++ b) = (ob ← for_rows body b; Ok (oa ++ ob)%list).
Proof.
  revert oa. induction a as [|row a IH]; intros oa; cbn [for_rows app].
  - intros [= <-]. destruct (for_rows body b); reflexivity.
  - destruct (body row) as [r|e]; cbn [mbind res_bind]; [|discriminate].
    destruct (for_rows body a) as [ca|e] eqn:E; cbn [mbind res_bind]; [|discriminate].
    intros [= <-]. rewrite (IH ca eq_refl).
    destruct (for_rows body b) as [ob|e]; cbn [mbind res_bind]; [|reflexivity].
    now destruct r.
Qed.

Lemma for_rows_raise (body : record -> res (option record)) (a b : list record)
    (e : exn) :
  for_rows body a = Raise e -> for_rows body (a ++ b) = Raise e.
Proof.
  induction a as [|row a IH]; cbn [for_rows app]; [discriminate|].
  destruct (body row) as [r|e']; cbn [mbind res_bind]; [|done].
  destruct (for_rows body a) as [ca|e'] eqn:E; cbn [mbind res_bind]; [discriminate|].
  intros [= ->]. now rewrite (IH eq_refl).
Qed.

Lemma for_rows_length (body : record -> res (option record)) (rows out : list record) :
  for_rows body rows = Ok out -> (length out <= length rows)%nat.
Proof.
  revert out. induction rows as [|row rows IH]; intros out; cbn [for_rows].
  - intros [= <-]. reflexivity.
  - destruct (body row) as [r|e]; cbn [mbind res_bind]; [|discriminate].
    destruct (for_rows body rows) as [c|e]; cbn [mbind res_bind]; [|discriminate].
    specialize (IH c eq_refl). intros [= <-]. destruct r; cbn [length]; lia.
Qed.

Lemma for_rows_elem (body : record -> res (option record)) (rows out : list record)
    (rec : record) :
  for_rows body rows = Ok out -> rec ∈ out ->
  exists row, row ∈ rows /\ body row = Ok (Some rec).
Proof.
  revert out. induction rows as [|row rows IH]; intros out; cbn [for_rows].
  - intros [= <-] H. now apply elem_of_nil in H.
  - destruct (body row) as [r|e] eqn:B; cbn [mbind res_bind]; [|discriminate].
    destruct (for_rows body rows) as [c|e]; cbn [mbind res_bind]; [|discriminate].
    intros [= <-] H.
    assert (Hc : rec ∈ c -> exists row0, row0 ∈ row :: rows /\ body row0 = Ok (Some rec)).
    { intros Hin. destruct (IH c eq_refl Hin) as (row0 & H1 & H2).
      exists row0. split; [now apply list_elem_of_further|done]. }
    destruct r as [r|]; [|now apply Hc].
    apply elem_of_cons in H as [->|H]; [|now apply Hc].
    exists row. split; [apply list_elem_of_here|done].
Qed.

(** X12: each of the three cleaners works row by row: cleaning two lists
    one after the other gives the two results one after the other, an
    exception in the first list is the exception of the whole, and the
    result never has more records than the input has rows. *)
Theorem cleaners_row_wise (clean : list record -> res (list record)) :
  In clean [clean_ev_population_data; clean_charging_stations_data; clean_ev_sales_data] ->
  (forall a b oa ob, clean a = Ok oa -> clean b = Ok ob -> clean (a ++ b)%list = Ok (oa ++ ob)%list)
  /\ (forall a b e, clean a = Raise e -> clean (a ++ b)%list = Raise e)
  /\ (forall a b oa e, clean a = Ok oa -> clean b = Raise e -> clean (a ++ b)%list = Raise e)
  /\ (forall rows out, clean rows = Ok out -> (length out <= length rows)%nat).
Proof.
  intros H.
  assert (Hb : exists body, clean = for_rows body).
  { destruct H as [<-|[<-|[<-|[]]]]; eexists; reflexivity. }
  destruct Hb as [body ->]. repeat split.
  - intros a b oa ob Ha Hb. now rewrite (for_rows_app body a b oa Ha), Hb.
  - intros a b e. apply for_rows_raise.
  - intros a b oa e Ha Hb. now rewrite (for_rows_app body a b oa Ha), Hb.
  - intros rows out. apply for_rows_length.
Qed.

Lemma cleaners_row_wise_witness :
  clean_ev_sales_data
    ([raw_row {[ "region" := "EU"; "year" := "2020" ]}]
     ++ [raw_row {[ "region" := "US"; "year" := "1989" ]}])%list
  = Ok ([{[ "region" := VStr "EU"; "year" := VInt 2020 ]}] ++ [])%list.
Proof.
  apply (proj1 (cleaners_row_wise clean_ev_sales_data
                  ltac:(right; right; left; reflexivity))); reflexivity.
Defined.

(** ** Invariants of the emitted records *)

Lemma clean_string_some_inv (x : option pyval) (t : string) :
  clean_string x = Ok (Some t) ->
  exists s, x = Some (VStr s) /\ t = re_sub_control (strip s)
    /\ str_nonempty t = true
    /\ all_chars (fun c => negb (is_control c)) t = true.
Proof.
  intros H.
  assert (Hs : exists s, x = Some (VStr s)).
  { unfold clean_string in H. destruct (negb (truthy x)); [discriminate|].
    destruct x as [[s| | |]|]; try discriminate. now exists s. }
  destruct Hs as [s ->]. exists s. split; [reflexivity|].
  apply clean_string_result in H. tauto.
Qed.

Lemma dom_put_str (k : string) (x : option string) (m : record) :
  dom (put_str k x m) ⊆ {[ k ]} ∪ dom m.
Proof.
  unfold put_str. destruct x as [s|]; [|set_solver].
  destruct (str_truthy (Some s)); [|set_solver]. rewrite dom_insert. set_solver.
Qed.

Lemma dom_put_positive (k : string) (x : option pynum) (m : record) :
  dom (put_positive k x m) ⊆ {[ k ]} ∪ dom m.
Proof.
  unfold put_positive. destruct x as [n|]; [|set_solver].
  destruct (_ && _); [|set_solver]. rewrite dom_insert. set_solver.
Qed.

Lemma dom_put_num (k : string) (x : option pynum) (m : record) :
  dom (put_num k x m) ⊆ {[ k ]} ∪ dom m.
Proof.
  unfold put_num. destruct x as [n|]; [|set_solver].
  destruct (num_truthy (Some n)); [|set_solver]. rewrite dom_insert. set_solver.
Qed.

Lemma dom_put_long_str (n : Z) (k : string) (x : option string) (m : record) :
  dom (put_long_str n k x m) ⊆ {[ k ]} ∪ dom m.
Proof.
  unfold put_long_str. destruct x as [s|]; [|set_solver].
  destruct (_ && _); [|set_solver]. rewrite dom_insert. set_solver.
Qed.

Ltac bind_step :=
  match goal with
  | |- (mbind _ ?m = _ -> _) =>
      let E := fresh "E" in
      destruct m eqn:E; cbn [mbind res_bind]; [|intros [=]]
  end.

Lemma sales_row_invariant (row rec : record) :
  clean_ev_sales_row row = Ok (Some rec) ->
  (exists rg, rec !! "region" = Some (VStr rg) /\ str_nonempty rg = true
     /\ all_chars (fun c => negb (is_control c)) rg = true)
  /\ (exists y, rec !! "year" = Some (VInt y) /\ 1990 <= y <= 2030)
  /\ (forall v, rec !! "value" = Some v -> exists f, v = VFloat f)
  /\ dom rec ⊆ list_to_set ["region"; "year"; "parameter"; "value"; "unit"; "mode";
                            "powertrain"].
Proof.
  unfold clean_ev_sales_row.
  bind_step. destruct a as [rg|]; [|discriminate].
  destruct (negb (str_truthy (Some rg))); [discriminate|].
  bind_step. destruct a as [y|]; [|discriminate].
  destruct (negb (num_truthy (Some y))); [discriminate|].
  repeat bind_step.
  intros [= <-].
  destruct (clean_string_some_inv _ _ E) as (s & _ & _ & Hne & Hctl).
  destruct (clean_year_range _ _ E0) as (z & -> & Hz).
  split; [|split; [|split]].
  - exists rg. lookup_record.
    assert (Hv : forall m : record, (match a0 with
                  | Some v => <["value" := num_val v]> m
                  | None => m end) !! "region" = m !! "region")
      by (intros m; destruct a0; [now rewrite lookup_insert_ne|reflexivity]).
    rewrite Hv. lookup_record. auto.
  - exists z. lookup_record.
    assert (Hv : forall m : record, (match a0 with
                  | Some v => <["value" := num_val v]> m
                  | None => m end) !! "year" = m !! "year")
      by (intros m; destruct a0; [now rewrite lookup_insert_ne|reflexivity]).
    rewrite Hv. lookup_record. auto.
  - intros v. lookup_record. destruct a0 as [n|].
    + rewrite lookup_insert_eq. intros [= <-].
      destruct (clean_numeric_float_kind _ _ E2) as [f ->]. now exists f.
    + lookup_record. discriminate.
  - pose proof (dom_put_str "powertrain" a3) as H1.
    pose proof (dom_put_str "mode" a2) as H2.
    pose proof (dom_put_str "unit" a1) as H3.
    pose proof (dom_put_str "parameter" a) as H4.
    etransitivity; [apply H1|]. apply union_least; [set_solver|].
    etransitivity; [apply H2|]. apply union_least; [set_solver|].
    etransitivity; [apply H3|]. apply union_least; [set_solver|].
    destruct a0 as [n|]; [rewrite dom_insert; apply union_least; [set_solver|]|];
      (etransitivity; [apply H4|]; apply union_least; [set_solver|];
       rewrite !dom_insert, dom_empty; set_solver).
Qed.

(** X13: every record the sales cleaner emits, whatever the rows hold, has
    a non-empty region free of control characters and an integer year
    between 1990 and 2030; its value, when present, is a float; and it has
    no key beyond region, year, parameter, value, unit, mode, powertrain. *)
Theorem sales_records_invariant (rows out : list record) (rec : record) :
  clean_ev_sales_data rows = Ok out -> rec ∈ out ->
  (exists rg, rec !! "region" = Some (VStr rg) /\ str_nonempty rg = true
     /\ all_chars (fun c => negb (is_control c)) rg = true)
  /\ (exists y, rec !! "year" = Some (VInt y) /\ 1990 <= y <= 2030)
  /\ (forall v, rec !! "value" = Some v -> exists f, v = VFloat f)
  /\ dom rec ⊆ list_to_set ["region"; "year"; "parameter"; "value"; "unit"; "mode";
                            "powertrain"].
Proof.
  intros H Hin. destruct (for_rows_elem _ _ _ _ H Hin) as (row & _ & Hrow).
  now apply sales_row_invariant in Hrow.
Qed.

Lemma sales_records_invariant_witness :
  exists y, ({[ "region" := VStr "EU"; "year" := VInt 2020 ]} : record) !! "year"
            = Some (VInt y) /\ 1990 <= y <= 2030.
Proof.
  apply (sales_records_invariant
           [raw_row {[ "country" := " EU "; "year" := "2,020"; "value" := "n/a" ]};
            raw_row {[ "region" := "US"; "year" := "1989" ]}]
           [{[ "region" := VStr "EU"; "year" := VInt 2020 ]}]
           {[ "region" := VStr "EU"; "year" := VInt 2020 ]}).
  - vm_compute. reflexivity.
  - apply list_elem_of_here.
Defined.

(** ** The charging-station records *)

Lemma validate_coordinates_some (lat lng : option pyval) (a b : spec_float) :
  validate_coordinates lat lng = Ok (Some a, Some b) ->
  in_range (-90) 90 a = true /\ in_range (-180) 180 b = true.
Proof.
  unfold validate_coordinates.
  destruct (float_if lat) as [[x|]|e]; cbn [mbind res_bind].
  - destruct (float_if lng) as [[y|]|e]; cbn [mbind res_bind try_except].
    + destruct (in_range (-90) 90 x && in_range (-180) 180 y) eqn:R; [|discriminate].
      intros [= <- <-]. now apply andb_true_iff in R.
    + discriminate.
    + destruct (existsb _ _); discriminate.
  - destruct (float_if lng) as [[y|]|e]; cbn [mbind res_bind try_except];
      try discriminate. destruct (existsb _ _); discriminate.
  - cbn [try_except]. destruct (existsb _ _); discriminate.
Qed.

Lemma lookup_fast_ne (o : option pyval) (m : record) (k : string) :
  k <> "is_fast_dc" ->
  match o with
  | Some v => <["is_fast_dc" := VBool (fast_dc_flag v)]> m
  | None => m
  end !! k = m !! k.
Proof. intros H. destruct o; [now apply lookup_insert_ne|reflexivity]. Qed.

Lemma lookup_put_positive_some (k : string) (x : option pynum) (m : record) (v : pyval) :
  m !! k = None ->
  put_positive k x m !! k = Some v ->
  exists n, x = Some n /\ v = num_val n /\ num_gt_int n 0 = true.
Proof.
  intros Hm. unfold put_positive. destruct x as [n|]; [|congruence].
  destruct (num_truthy (Some n) && num_gt_int n 0) eqn:C; [|congruence].
  rewrite lookup_insert_eq. intros [= <-]. exists n.
  apply andb_true_iff in C. tauto.
Qed.

Lemma stations_row_invariant (row rec : record) :
  clean_charging_stations_row row = Ok (Some rec) ->
  (exists lat, rec !! "latitude" = Some (VFloat lat) /\ in_range (-90) 90 lat = true)
  /\ (exists lng, rec !! "longitude" = Some (VFloat lng) /\ in_range (-180) 180 lng = true)
  /\ (exists c, rec !! "country_code" = Some (VStr (py_upper c)) /\ str_nonempty c = true)
  /\ (forall v, rec !! "power_kw" = Some v ->
        exists f, v = VFloat f /\ float_ltb float_zero f = true)
  /\ (forall v, rec !! "ports" = Some v -> exists z, v = VInt z /\ 0 < z)
  /\ rec !! "is_fast_dc" = (fun v => VBool (fast_dc_flag v)) <$> (row !! "is_fast_dc").
Proof.
  unfold clean_charging_stations_row.
  bind_step. destruct a as [[lat|] [lng|]]; try discriminate.
  destruct (validate_coordinates_some _ _ _ _ E) as [Hlat Hlng].
  bind_step. destruct a as [c|]; [|discriminate].
  destruct (negb (str_truthy (Some c))) eqn:Hc; [discriminate|].
  repeat bind_step. intros [= <-].
  apply clean_string_truthy in E0.
  repeat split.
  - exists lat. lookup_record. rewrite lookup_fast_ne by discriminate.
    lookup_record. auto.
  - exists lng. lookup_record. rewrite lookup_fast_ne by discriminate.
    lookup_record. auto.
  - exists c. lookup_record. rewrite lookup_fast_ne by discriminate.
    lookup_record. auto.
  - intros v. lookup_record. rewrite lookup_fast_ne by discriminate. lookup_record.
    intros Hv. apply lookup_put_positive_some in Hv as (n & Hn & -> & Hpos).
    + subst a0. destruct (clean_numeric_float_kind _ _ E2) as [f ->]. now exists f.
    + lookup_record. reflexivity.
  - intros v. lookup_record. rewrite lookup_fast_ne by discriminate. lookup_record.
    intros Hv. apply lookup_put_positive_some in Hv as (n & Hn & -> & Hpos).
    + subst a1. destruct (clean_numeric_int_kind _ _ E3) as [z ->]. exists z.
      split; [reflexivity|]. cbn [num_gt_int] in Hpos. lia.
    + lookup_record. reflexivity.
  - lookup_record. destruct (row !! "is_fast_dc") as [v|]; cbn [fmap option_fmap option_map].
    + now rewrite lookup_insert_eq.
    + lookup_record. reflexivity.
Qed.



(** X15: whether an emitted station record has the key [is_fast_dc] depends
    on the raw row alone: the key is there exactly when the row has the
    column, and it is true exactly when the upper-cased cell is one of
    TRUE, YES, 1, T; any other cell, the empty one included, gives false. *)
Theorem stations_fast_dc_flag (raw : gmap string string) (rec : record) :
  clean_charging_stations_row (raw_row raw) = Ok (Some rec) ->
  rec !! "is_fast_dc"
  = (fun s => VBool (str_in (py_upper s) ["TRUE"; "YES"; "1"; "T"])) <$> (raw !! "is_fast_dc").
Proof.
  intros H. apply stations_row_invariant in H as (_ & _ & _ & _ & _ & H).
  rewrite H, raw_row_lookup. now destruct (raw !! "is_fast_dc").
Qed.

Lemma stations_fast_dc_flag_witness :
  let raw : gmap string string :=
    {[ "latitude" := "45"; "longitude" := "-120"; "country" := "us"; "is_fast_dc" := "Yes" ]} in
  ({[ "latitude" := VFloat (float_of_Z 45); "longitude" := VFloat (float_of_Z (-120));
      "country_code" := VStr "US"; "is_fast_dc" := VBool true ]} : record) !! "is_fast_dc"
  = (fun s => VBool (str_in (py_upper s) ["TRUE"; "YES"; "1"; "T"])) <$> (raw !! "is_fast_dc").
Proof.
  intros raw. apply (stations_fast_dc_flag raw). vm_compute. reflexivity.
Defined.

(** X16: a raw station row without a latitude, or with an empty one, is
    dropped, whatever its other cells hold; the same holds for the
    longitude. *)
Theorem station_without_coordinate_dropped (raw : gmap string string) :
  (raw !! "latitude" = None \/ raw !! "latitude" = Some ""
   \/ raw !! "longitude" = None \/ raw !! "longitude" = Some "") ->
  clean_charging_stations_data [raw_row raw] = Ok [].
Proof.
  intros H. unfold clean_charging_stations_data. rewrite for_rows_single.
  unfold clean_charging_stations_row. rewrite !raw_row_lookup, validate_coordinates_str.
  assert (Hn : coordinate (-90) 90 (raw !! "latitude") = None
               \/ coordinate (-180) 180 (raw !! "longitude") = None).
  { destruct H as [H|[H|[H|H]]]; rewrite H; auto. }
  cbn [mbind res_bind].
  destruct Hn as [->| ->]; [reflexivity|].
  now destruct (coordinate (-90) 90 _).
Qed.

Lemma station_without_coordinate_dropped_witness :
  clean_charging_stations_data
    [raw_row {[ "longitude" := "-120"; "country" := "us"; "city" := "Seattle";
                "power_kw" := "150"; "ports" := "4" ]}] = Ok [].
Proof.
  apply station_without_coordinate_dropped. left. reflexivity.
Defined.

(** ** The vehicle records *)

Lemma standardize_make_nonempty (x : option pyval) (mk : string) :
  standardize_make x = Ok (Some mk) -> str_nonempty mk = true.
Proof.
  unfold standardize_make. destruct (negb (truthy x)); [discriminate|].
  destruct (clean_string x) as [[m|]|e] eqn:E; cbn [mbind res_bind]; try discriminate.
  rewrite (clean_string_truthy _ _ E). cbn [negb].
  set (d := default _ _). intros [= <-]. subst d.
  destruct (standardization_map !! py_lower m) as [v|] eqn:L; cbn [default].
  - eapply standardization_map_nonempty; eassumption.
  - apply py_title_nonempty. now apply clean_string_truthy in E.
Qed.

Lemma lookup_put_num_some (k : string) (x : option pynum) (m : record) (v : pyval) :
  m !! k = None ->
  put_num k x m !! k = Some v -> exists n, x = Some n /\ v = num_val n.
Proof.
  intros Hm. unfold put_num. destruct x as [n|]; [|congruence].
  destruct (num_truthy (Some n)); [|congruence].
  rewrite lookup_insert_eq. intros [= <-]. now exists n.
Qed.

Lemma lookup_put_long_str_some (n : Z) (k : string) (x : option string) (m : record)
    (v : pyval) :
  m !! k = None ->
  put_long_str n k x m !! k = Some v -> exists s, v = VStr s /\ n <= py_len s.
Proof.
  intros Hm. unfold put_long_str. destruct x as [s|]; [|congruence].
  destruct (str_truthy (Some s) && (n <=? py_len s)) eqn:C; [|congruence].
  rewrite lookup_insert_eq. intros [= <-]. exists s. split; [reflexivity|].
  apply andb_true_iff in C as [_ C]. lia.
Qed.

Lemma lookup_put_str_some (k : string) (x : option string) (m : record) (v : pyval) :
  m !! k = None ->
  put_str k x m !! k = Some v -> exists s, x = Some s /\ v = VStr s.
Proof.
  intros Hm. rewrite lookup_put_str_eq. destruct (str_truthy x); [|congruence].
  destruct x as [s|]; [|discriminate]. intros [= <-]. now exists s.
Qed.

Lemma population_row_invariant (row rec : record) :
  clean_ev_population_row row = Ok (Some rec) ->
  (exists mk, rec !! "make" = Some (VStr mk) /\ str_nonempty mk = true)
  /\ (exists md, rec !! "model" = Some (VStr md) /\ str_nonempty md = true)
  /\ ((exists st, rec !! "state" = Some (VStr st) /\ str_nonempty st = true)
      \/ (exists ct, rec !! "city" = Some (VStr ct) /\ str_nonempty ct = true))
  /\ (forall v, rec !! "model_year" = Some v -> exists z, v = VInt z /\ 1990 <= z <= 2030)
  /\ (forall v, rec !! "electric_range" = Some v -> exists z, v = VInt z /\ 0 < z)
  /\ (forall v, rec !! "base_msrp" = Some v ->
        exists f, v = VFloat f /\ float_ltb float_zero f = true)
  /\ (forall v, rec !! "vin_1_10" = Some v -> exists s, v = VStr s /\ 10 <= py_len s).
Proof.
  unfold clean_ev_population_row.
  bind_step. rename a into make, E into Emake.
  bind_step. rename a into model, E into Emodel.
  destruct make as [mk|]; [|discriminate]. destruct model as [md|]; [|discriminate].
  destruct (negb (str_truthy (Some mk)) || negb (str_truthy (Some md))); [discriminate|].
  bind_step. rename a into year, E into Eyear.
  bind_step. rename a into ev_type, E into Eev.
  bind_step. rename a into electric_range, E into Erange.
  bind_step. rename a into price, E into Eprice.
  bind_step. rename a into state, E into Estate.
  bind_step. rename a into city, E into Ecity.
  bind_step. rename a into county, E into Ecounty.
  bind_step. rename a into vin, E into Evin.
  match goal with |- (if ?c then _ else _) = _ -> _ => destruct c eqn:Hkeep end;
    [|discriminate].
  intros [= <-].
  apply andb_true_iff in Hkeep as [_ Hloc].
  revert Hloc. lookup_record. intros Hloc.
  split; [|split; [|split; [|split; [|split; [|split]]]]].
  - exists mk. lookup_record. split; [reflexivity|].
    now apply standardize_make_nonempty in Emake.
  - exists md. lookup_record. split; [reflexivity|].
    now apply clean_string_truthy in Emodel.
  - unfold py_or in Hloc.
    destruct (str_truthy state) eqn:Hs.
    + left. destruct state as [st|]; [|discriminate]. exists st.
      lookup_record. rewrite ?Hs. split; [reflexivity|exact Hs].
    + right. cbn [truthy] in Hloc.
      destruct (str_truthy city) eqn:Hc; [|discriminate].
      destruct city as [ct|]; [|discriminate]. exists ct.
      lookup_record. rewrite ?Hc. split; [reflexivity|exact Hc].
  - intros v. lookup_record. intros Hv.
    apply lookup_put_num_some in Hv as (n & -> & ->); [|lookup_record; reflexivity].
    destruct (clean_year_range _ _ Eyear) as (z & -> & Hz). now exists z.
  - intros v. lookup_record. intros Hv.
    apply lookup_put_positive_some in Hv as (n & -> & -> & Hpos);
      [|lookup_record; reflexivity].
    destruct (clean_numeric_int_kind _ _ Erange) as [z ->]. exists z.
    split; [reflexivity|]. cbn [num_gt_int] in Hpos. lia.
  - intros v. lookup_record. intros Hv.
    apply lookup_put_positive_some in Hv as (n & -> & -> & Hpos);
      [|lookup_record; reflexivity].
    destruct (clean_numeric_float_kind _ _ Eprice) as [f ->]. now exists f.
  - intros v. intros Hv.
    apply lookup_put_long_str_some in Hv; [exact Hv|lookup_record; reflexivity].
Qed.

(** X17: every record the vehicle cleaner emits, whatever the rows hold,
    has a non-empty make and model and a non-empty state or city; its model
    year, when present, is an integer between 1990 and 2030, its electric
    range an integer above zero, its price a float above zero, and its VIN
    prefix a string of at least ten characters. *)
Theorem population_records_invariant (rows out : list record) (rec : record) :
  clean_ev_population_data rows = Ok out -> rec ∈ out ->
  (exists mk, rec !! "make" = Some (VStr mk) /\ str_nonempty mk = true)
  /\ (exists md, rec !! "model" = Some (VStr md) /\ str_nonempty md = true)
  /\ ((exists st, rec !! "state" = Some (VStr st) /\ str_nonempty st = true)
      \/ (exists ct, rec !! "city" = Some (VStr ct) /\ str_nonempty ct = true))
  /\ (forall v, rec !! "model_year" = Some v -> exists z, v = VInt z /\ 1990 <= z <= 2030)
  /\ (forall v, rec !! "electric_range" = Some v -> exists z, v = VInt z /\ 0 < z)
  /\ (forall v, rec !! "base_msrp" = Some v ->
        exists f, v = VFloat f /\ float_ltb float_zero f = true)
  /\ (forall v, rec !! "vin_1_10" = Some v -> exists s, v = VStr s /\ 10 <= py_len s).
Proof.
  intros H Hin. destruct (for_rows_elem _ _ _ _ H Hin) as (row & _ & Hrow).
  now apply population_row_invariant in Hrow.
Qed.

Lemma population_records_invariant_witness :
  exists mk, ({[ "make" := VStr "Volkswagen"; "model" := VStr "ID.4"; "city" := VStr "Kent";
                 "electric_range" := VInt 250 ]} : record) !! "make" = Some (VStr mk)
             /\ str_nonempty mk = true.
Proof.
  pose (rec := {[ "make" := VStr "Volkswagen"; "model" := VStr "ID.4"; "city" := VStr "Kent";
                  "electric_range" := VInt 250 ]} : record).
  apply (population_records_invariant
           [raw_row {[ "Make" := " vw "; "Model" := "ID.4"; "City" := "Kent";
                       "Electric Range" := "250.7"; "Base MSRP" := "0";
                       "VIN (1-10)" := "SHORT"; "Model Year" := "1989" ]};
            raw_row {[ "make" := "kia"; "model" := "EV6" ]}]
           [rec] rec).
  - vm_compute. reflexivity.
  - apply list_elem_of_here.
Defined.

(** ** Trimming, and cleaning twice *)

Lemma lstrip_idem (s : string) : lstrip (lstrip s) = lstrip s.
Proof.
  induction s as [|c r IH]; [reflexivity|]. cbn [lstrip].
  destruct (py_isspace c) eqn:E; [exact IH|]. cbn [lstrip]. now rewrite E.
Qed.

Lemma rstrip_idem (s : string) : rstrip (rstrip s) = rstrip s.
Proof.
  induction s as [|c r IH]; [reflexivity|]. cbn [rstrip].
  destruct (rstrip r) as [|d r'] eqn:E.
  - destruct (py_isspace c) eqn:Ec; [reflexivity|]. cbn [rstrip]. now rewrite Ec.
  - cbn [rstrip]. cbn [rstrip] in IH. now rewrite IH.
Qed.

Lemma rstrip_head (c : ascii) (r : string) :
  py_isspace c = false -> exists r', rstrip (String c r) = String c r'.
Proof.
  intros E. cbn [rstrip]. destruct (rstrip r); [rewrite E|]; now eexists.
Qed.

Lemma lstrip_head (s : string) :
  lstrip s = EmptyString \/ exists c r, lstrip s = String c r /\ py_isspace c = false.
Proof.
  induction s as [|c r IH]; [now left|]. cbn [lstrip].
  destruct (py_isspace c) eqn:E; [exact IH|]. right. now exists c, r.
Qed.

Lemma strip_idem (s : string) : strip (strip s) = strip s.
Proof.
  unfold strip. destruct (lstrip_head s) as [->|(c & r & -> & E)]; [reflexivity|].
  destruct (rstrip_head c r E) as [r' Hr]. rewrite Hr.
  cbn [lstrip]. rewrite E, <- Hr. apply rstrip_idem.
Qed.

Lemma all_chars_lstrip (p : ascii -> bool) (s : string) :
  all_chars p s = true -> all_chars p (lstrip s) = true.
Proof.
  induction s as [|c r IH]; [done|]. cbn [lstrip all_chars].
  intros H. apply andb_true_iff in H as [Hc Hr].
  destruct (py_isspace c); [now apply IH|]. cbn [all_chars]. now rewrite Hc.
Qed.

Lemma all_chars_rstrip (p : ascii -> bool) (s : string) :
  all_chars p s = true -> all_chars p (rstrip s) = true.
Proof.
  induction s as [|c r IH]; [done|]. cbn [rstrip all_chars].
  intros H. apply andb_true_iff in H as [Hc Hr]. specialize (IH Hr).
  destruct (rstrip r) as [|d r'].
  - destruct (py_isspace c); [done|]. cbn [all_chars]. now rewrite Hc.
  - cbn [all_chars] in *. now rewrite Hc.
Qed.

Lemma all_chars_strip (p : ascii -> bool) (s : string) :
  all_chars p s = true -> all_chars p (strip s) = true.
Proof. intros H. unfold strip. now apply all_chars_rstrip, all_chars_lstrip. Qed.

(** X18: on a string with no control character, [clean_string] is plain
    trimming, and cleaning the result again gives it back: the result has
    no whitespace at either end and is a fixed point of the function. *)
Theorem clean_string_idempotent (s t : string) :
  all_chars (fun c => negb (is_control c)) s = true ->
  clean_string (Some (VStr s)) = Ok (Some t) ->
  t = strip s /\ strip t = t /\ clean_string (Some (VStr t)) = Ok (Some t).
Proof.
  intros Hctl H.
  assert (Hs : re_sub_control (strip s) = strip s)
    by (apply remove_chars_none; now apply all_chars_strip).
  rewrite clean_string_str, Hs in H.
  destruct (str_nonempty s && negb (str_in (strip s) null_strings)
            && str_nonempty (strip s)) eqn:C; [|discriminate].
  injection H as <-.
  apply andb_true_iff in C as [C Hne]. apply andb_true_iff in C as [_ Hnull].
  split; [reflexivity|]. split; [apply strip_idem|].
  rewrite clean_string_str, strip_idem, Hs, Hnull, Hne. reflexivity.
Qed.

Lemma clean_string_idempotent_witness :
  "Model 3" = strip "  Model 3 " /\ strip "Model 3" = "Model 3"
  /\ clean_string (Some (VStr "Model 3")) = Ok (Some "Model 3").
Proof.
  apply (clean_string_idempotent "  Model 3 " "Model 3"); reflexivity.
Defined.

(** ** Symbols in numeric cells *)

Lemma remove_chars_twice (p q : ascii -> bool) (s : string) :
  remove_chars p (remove_chars q s) = remove_chars (fun c => q c || p c) s.
Proof.
  induction s as [|c r IH]; [reflexivity|]. cbn [remove_chars].
  destruct (q c); cbn [orb remove_chars]; [exact IH|].
  destruct (p c); [exact IH|now rewrite IH].
Qed.

Lemma remove_chars_ext (p q : ascii -> bool) (s : string) :
  (forall c, p c = q c) -> remove_chars p s = remove_chars q s.
Proof.
  intros H. induction s as [|c r IH]; [reflexivity|]. cbn [remove_chars].
  now rewrite H, IH.
Qed.

Lemma strip_symbols_remove (s : string) :
  strip_symbols s
  = strip (remove_chars (fun c => Ascii.eqb "$" c || Ascii.eqb "," c || Ascii.eqb "%" c) s).
Proof.
  unfold strip_symbols, replace_char. rewrite !remove_chars_twice. f_equal.
  apply remove_chars_ext. intros c. now rewrite orb_assoc.
Qed.

(** X19: the symbols $ , % are ignored wherever they stand in a numeric
    cell: for either kind, [clean_numeric] gives the same result, or the
    same exception, on a string and on that string without them. *)
Theorem clean_numeric_ignores_symbols (s data_type : string) :
  let symbol c := Ascii.eqb "$" c || Ascii.eqb "," c || Ascii.eqb "%" c in
  clean_numeric (Some (VStr (remove_chars symbol s))) data_type
  = clean_numeric (Some (VStr s)) data_type.
Proof.
  cbv zeta.
  set (symbol := fun c => Ascii.eqb "$" c || Ascii.eqb "," c || Ascii.eqb "%" c).
  assert (Hsame : strip_symbols (remove_chars symbol s) = strip_symbols s).
  { rewrite !strip_symbols_remove. fold symbol. f_equal.
    rewrite remove_chars_twice. apply remove_chars_ext.
    intros c. now destruct (symbol c). }
  unfold clean_numeric. cbn [truthy py_str]. rewrite Hsame.
  destruct (str_nonempty (remove_chars symbol s)) eqn:E1;
    destruct (str_nonempty s) eqn:E2; cbn [negb]; try reflexivity.
  - apply str_nonempty_false in E2. subst s. discriminate.
  - apply str_nonempty_false in E1.
    rewrite strip_symbols_remove. fold symbol. rewrite E1. reflexivity.
Qed.

(** ** [guess_column_type] *)

Lemma guess_column_type_on (values : list string) :
  guess_column_type values =
  match take 50 (non_empty_values values) with
  | [] => Ok "TEXT"
  | w =>
      numeric ← try_except
                  (has_decimal ← scan_numeric (take 20 w) false; Ok (Some has_decimal))
                  [ValueError; TypeError]
                  (Ok None);
      match numeric with
      | Some true => Ok "DECIMAL(15,4)"
      | Some false => Ok "INTEGER"
      | None =>
          let max_len := max_length w in
          if max_len <=? 50 then Ok "VARCHAR(100)"
          else if max_len <=? 150 then Ok "VARCHAR(200)"
          else Ok "TEXT"
      end
  end.
Proof.
  unfold guess_column_type. set (n := non_empty_values values).
  assert (H20 : take 20 (take 50 n) = take 20 n) by (rewrite take_take; reflexivity).
  destruct n as [|v l]; [reflexivity|].
  rewrite <- H20. reflexivity.
Qed.

(** X20: the inferred type depends on the first 50 non-blank values only,
    each taken trimmed: two samples that agree on them get the same type,
    or raise the same exception. *)
Theorem guess_column_type_window (values values' : list string) :
  take 50 (non_empty_values values) = take 50 (non_empty_values values') ->
  guess_column_type values = guess_column_type values'.
Proof. intros H. now rewrite !guess_column_type_on, H. Qed.

Lemma guess_column_type_window_witness :
  guess_column_type (replicate 50 "7" ++ ["seven point five"])%list
  = guess_column_type (replicate 50 "7" ++ ["7.5"; ""; "x"])%list.
Proof.
  apply guess_column_type_window. vm_compute. reflexivity.
Defined.

Lemma non_empty_values_app (a b : list string) :
  non_empty_values (a ++ b) = (non_empty_values a ++ non_empty_values b)%list.
Proof. unfold non_empty_values. now rewrite List.filter_app, map_app. Qed.

Lemma non_empty_values_strip (values : list string) :
  non_empty_values (map strip values) = non_empty_values values.
Proof.
  unfold non_empty_values. induction values as [|v l IH]; [reflexivity|].
  cbn [map List.filter]. rewrite strip_idem.
  destruct (str_nonempty (strip v)) eqn:E.
  - rewrite andb_true_r. destruct (str_nonempty v) eqn:Ev.
    + cbn [andb map]. rewrite strip_idem. now f_equal.
    + apply str_nonempty_false in Ev. subst v. discriminate.
  - rewrite !andb_false_r. exact IH.
Qed.

(** X21: blank cells and surrounding whitespace never matter to the
    inferred type: a cell that is empty or whitespace-only can be inserted
    or removed anywhere in the sample, and every cell can be trimmed,
    without changing the result. *)
Theorem guess_column_type_ignores_blanks (before after : list string) (blank : string) :
  str_nonempty (strip blank) = false ->
  guess_column_type (before ++ blank :: after)%list = guess_column_type (before ++ after)%list
  /\ guess_column_type (map strip (before ++ after)) = guess_column_type (before ++ after)%list.
Proof.
  intros Hb. split.
  - apply guess_column_type_window. f_equal.
    rewrite !non_empty_values_app. f_equal.
    unfold non_empty_values. cbn [List.filter]. now rewrite Hb, andb_false_r.
  - apply guess_column_type_window. now rewrite non_empty_values_strip.
Qed.

Lemma guess_column_type_ignores_blanks_witness :
  guess_column_type ["1"; "   "; "2"] = guess_column_type ["1"; "2"]
  /\ guess_column_type (map strip [" 1"; "2 "]) = guess_column_type [" 1"; "2 "].
Proof.
  split.
  - apply (proj1 (guess_column_type_ignores_blanks ["1"] ["2"] "   " eq_refl)).
  - apply (proj2 (guess_column_type_ignores_blanks [" 1"] ["2 "] "" eq_refl)).
Defined.

Lemma value_has_decimal_plain (v : string) :
  is_plain_number v = true -> value_has_decimal v = Ok (has_fraction v).
Proof.
  unfold is_plain_number, value_has_decimal, has_fraction.
  destruct (float_of_str v) as [f|e]; [|discriminate]. cbn [mbind res_bind].
  destruct (contains_char "." v); [reflexivity|]. cbn [orb]. intros Hfin.
  now rewrite (int_of_float_finite f Hfin).
Qed.

Lemma value_has_decimal_not_number (v : string) :
  is_not_number v = true -> value_has_decimal v = Raise ValueError.
Proof.
  unfold is_not_number, value_has_decimal.
  destruct (float_of_str v) as [f|e] eqn:E; cbn [mbind res_bind].
  - destruct f; try discriminate. destruct (contains_char "." v); [discriminate|].
    reflexivity.
  - intros _. now apply float_of_str_raise in E as ->.
Qed.

Lemma value_has_decimal_infinity (v : string) :
  is_bare_infinity v = true -> value_has_decimal v = Raise OverflowError.
Proof.
  unfold is_bare_infinity, value_has_decimal.
  destruct (float_of_str v) as [f|e]; [|discriminate]. cbn [mbind res_bind].
  destruct f; try discriminate. destruct (contains_char "." v); [discriminate|].
  reflexivity.
Qed.

Lemma scan_numeric_plain (vs : list string) (acc : bool) :
  forallb is_plain_number vs = true ->
  scan_numeric vs acc = Ok (existsb has_fraction vs || acc).
Proof.
  revert acc. induction vs as [|v vs IH]; intros acc; cbn [forallb scan_numeric existsb].
  - reflexivity.
  - intros H. apply andb_true_iff in H as [Hv Hvs].
    rewrite (value_has_decimal_plain v Hv). cbn [mbind res_bind].
    rewrite (IH _ Hvs). f_equal.
    destruct (has_fraction v), (existsb has_fraction vs), acc; reflexivity.
Qed.

Lemma scan_numeric_stops (pre post : list string) (v : string) (acc : bool) (e : exn) :
  forallb is_plain_number pre = true ->
  value_has_decimal v = Raise e ->
  scan_numeric (pre ++ v :: post) acc = Raise e.
Proof.
  revert acc. induction pre as [|p pre IH]; intros acc; cbn [forallb app scan_numeric].
  - intros _ ->. reflexivity.
  - intros H Hv. apply andb_true_iff in H as [Hp Hpre].
    rewrite (value_has_decimal_plain p Hp). cbn [mbind res_bind]. now apply IH.
Qed.

(** X22: what [guess_column_type] returns on a sample with a non-blank
    value.  If each of the first 20 non-blank values is a plain number, the
    type is DECIMAL(15,4) when one of them has a fraction and INTEGER
    otherwise.  If the first of them that is not a plain number does not
    parse, or is a NaN, the type is chosen by the longest of the first 50
    non-blank values: VARCHAR(100) up to 50 characters, VARCHAR(200) up to
    150, TEXT beyond.  If it is an infinity written without a point, the
    function raises OverflowError. *)
Theorem guess_column_type_cases (values pre post : list string) (v : string) :
  let sample := non_empty_values values in
  (sample = [] -> guess_column_type values = Ok "TEXT")
  /\ (sample <> [] -> forallb is_plain_number (take 20 sample) = true ->
      guess_column_type values
      = Ok (if existsb has_fraction (take 20 sample) then "DECIMAL(15,4)" else "INTEGER"))
  /\ (take 20 sample = (pre ++ v :: post)%list -> forallb is_plain_number pre = true ->
      (is_not_number v = true ->
       guess_column_type values = Ok (length_bucket (max_length (take 50 sample))))
      /\ (is_bare_infinity v = true -> guess_column_type values = Raise OverflowError)).
Proof.
  cbv zeta. unfold guess_column_type.
  destruct (non_empty_values values) as [|x l] eqn:E.
  - split; [reflexivity|]. split; [congruence|].
    intros H. destruct pre; discriminate.
  - split; [discriminate|]. split.
    + intros _ H. rewrite (scan_numeric_plain _ false H). cbn [mbind res_bind try_except].
      rewrite orb_false_r. now destruct (existsb _ _).
    + intros -> Hpre. split; intros Hv.
      * rewrite (scan_numeric_stops pre post v false ValueError Hpre
                   (value_has_decimal_not_number v Hv)).
        cbn [mbind res_bind try_except existsb exn_eqb orb]. cbv iota.
        cbn [mbind res_bind]. unfold length_bucket.
        destruct (_ <=? 50); [reflexivity|]. now destruct (_ <=? 150).
      * rewrite (scan_numeric_stops pre post v false OverflowError Hpre
                   (value_has_decimal_infinity v Hv)).
        reflexivity.
Qed.

Lemma guess_column_type_cases_witness :
  guess_column_type ["1"; "2"; "3.5"] = Ok "DECIMAL(15,4)"
  /\ guess_column_type ["1"; "2"; "3"] = Ok "INTEGER"
  /\ guess_column_type ["1e-1"; "2"] = Ok "DECIMAL(15,4)"
  /\ guess_column_type ["12"; "nan"; "x"] = Ok "VARCHAR(100)"
  /\ guess_column_type ["12"; "inf"; "x"] = Raise OverflowError.
Proof.
  split; [|split; [|split; [|split]]].
  - apply (proj1 (proj2 (guess_column_type_cases ["1"; "2"; "3.5"] [] [] "")));
      [discriminate|reflexivity].
  - apply (proj1 (proj2 (guess_column_type_cases ["1"; "2"; "3"] [] [] "")));
      [discriminate|reflexivity].
  - apply (proj1 (proj2 (guess_column_type_cases ["1e-1"; "2"] [] [] "")));
      [discriminate|reflexivity].
  - apply (proj1 (proj2 (proj2 (guess_column_type_cases ["12"; "nan"; "x"] ["12"] ["x"] "nan"))
                   eq_refl eq_refl)).
    reflexivity.
  - apply (proj2 (proj2 (proj2 (guess_column_type_cases ["12"; "inf"; "x"] ["12"] ["x"] "inf"))
                   eq_refl eq_refl)).
    reflexivity.
Defined.

(** ** The column definitions of the typed load *)




(** A file of three data rows: a short row leaves its missing cells
    blank; and a column that holds an infinity stops the inference. *)
Example column_defs_short_rows :
  column_defs ["id"; "name"; "note"] [["1"; "Ann"]; ["2"; "Bob"; "  "]; ["3"]]
  = Ok [quote +:+ "id" +:+ quote +:+ " INTEGER";
        quote +:+ "name" +:+ quote +:+ " VARCHAR(100)";
        quote +:+ "note" +:+ quote +:+ " TEXT"]
  /\ column_defs ["id"; "range"] [["1"; "inf"]] = Raise OverflowError.
Proof. split; vm_compute; reflexivity. Qed.
